(** * KubeCuro healing core

    A shallow embedding of [kubecuro/healing/structurer.py] (class
    [KubeStructurer]) and [kubecuro/healing/pipeline.py] (class
    [HealingPipeline]), with the properties of the repair loop, the
    indentation fix and the result envelope.

    Conventions.
    - A Python [str] is a [string]; a character is a code point below 256,
      so [Py.isspace] and [Py.splitlines] carry the part of Python's
      Unicode tables that lies in that range.
    - A Python exception is the [Raise] branch of [Exc], carrying [str(e)].
    - The YAML engine (ruamel.yaml), the lexer ([RawLexer], which lives in
      a module of its own) and the file system are parameters of the
      sections that use them; [Scenarios] scripts them for the worked
      examples.

    The definitions come first ([Py], [KubeStructurer], [HealingPipeline],
    [Scenarios], then [BatchSummary] for [batch_success_rate] and
    [AuditEngine] for the file operations of [core/engine.py]), the
    properties after them. *)

From Stdlib Require Import Bool Arith ZArith Lia List Ascii String.
From Stdlib Require Import DecimalNat DecimalString.
From Stdlib Require Import Sorted.
Import ListNotations.
Open Scope list_scope.
Open Scope string_scope.
Open Scope nat_scope.

(** ** Exceptions *)

Inductive Exc (A : Type) : Type :=
| Return (a : A)
| Raise (msg : string).
Arguments Return {A} a.
Arguments Raise {A} msg.

Definition bind {A B : Type} (m : Exc A) (k : A -> Exc B) : Exc B :=
  match m with
  | Return a => k a
  | Raise msg => Raise msg
  end.

Notation "x <- m ;; k" := (bind m (fun x => k))
  (at level 61, m at next level, right associativity).

(** ** The Python primitives the two modules use *)

Module Py.

(** [str.isspace] on one character: TAB..CR, FS..US, SPACE, NEL, NBSP. *)
Definition isspace (c : ascii) : bool :=
  let n := nat_of_ascii c in
  ((9 <=? n) && (n <=? 13)) || ((28 <=? n) && (n <=? 31))
  || (n =? 32) || (n =? 133) || (n =? 160).

Fixpoint lstrip (s : string) : string :=
  match s with
  | "" => ""
  | String c s' => if isspace c then lstrip s' else s
  end.

Fixpoint rstrip (s : string) : string :=
  match s with
  | "" => ""
  | String c s' =>
      match rstrip s' with
      | "" => if isspace c then "" else String c ""
      | r => String c r
      end
  end.

Definition strip (s : string) : string := rstrip (lstrip s).

Definition startswith (p s : string) : bool := prefix p s.

Fixpoint endswith (p s : string) : bool :=
  (s =? p)%string || match s with
              | "" => false
              | String _ s' => endswith p s'
              end.

(** [p in s] *)
Fixpoint contains (p s : string) : bool :=
  prefix p s || match s with
                | "" => false
                | String _ s' => contains p s'
                end.

(** [s.replace(old, new)] for a non-empty [old]: leftmost matches, not
    overlapping; [skip] counts the characters of a match still to drop. *)
Fixpoint replace_from (old new : string) (skip : nat) (s : string) : string :=
  match s with
  | "" => ""
  | String c s' =>
      match skip with
      | S k => replace_from old new k s'
      | O => if prefix old s
             then new ++ replace_from old new (String.length old - 1) s'
             else String c (replace_from old new 0 s')
      end
  end.

Definition replace (old new s : string) : string := replace_from old new 0 s.

(** Line boundaries of [str.splitlines]: LF, VT, FF, CR, FS, GS, RS, NEL
    (and CR LF as one). *)
Definition islinebreak (c : ascii) : bool :=
  let n := nat_of_ascii c in
  ((10 <=? n) && (n <=? 13)) || ((28 <=? n) && (n <=? 30)) || (n =? 133).

Definition CR : ascii := ascii_of_nat 13.
Definition LF : ascii := ascii_of_nat 10.
Definition TAB : ascii := ascii_of_nat 9.

Fixpoint splitlines (s : string) : list string :=
  match s with
  | "" => []
  | String c s' =>
      if islinebreak c then
        "" :: match s' with
              | String c' s'' =>
                  if (c =? CR)%char && (c' =? LF)%char
                  then splitlines s'' else splitlines s'
              | "" => []
              end
      else match splitlines s' with
           | [] => [String c ""]
           | l :: ls => String c l :: ls
           end
  end.

(** [sep.join(parts)] *)
Fixpoint join (sep : string) (parts : list string) : string :=
  match parts with
  | [] => ""
  | [p] => p
  | p :: ps => p ++ sep ++ join sep ps
  end.

(** [s.split(c)] for a one-character separator. *)
Fixpoint split (sep : ascii) (s : string) : list string :=
  match s with
  | "" => [""]
  | String c s' =>
      if (c =? sep)%char then "" :: split sep s'
      else match split sep s' with
           | [] => [String c ""]
           | p :: ps => String c p :: ps
           end
  end.

(** [s[:n]] and [s[1:]] *)
Definition take (n : nat) (s : string) : string := substring 0 n s.

Definition tail (s : string) : string :=
  match s with
  | "" => ""
  | String _ s' => s'
  end.

(** [c * n] *)
Fixpoint repeat (c : ascii) (n : nat) : string :=
  match n with
  | O => ""
  | S k => String c (repeat c k)
  end.

(** [xs[i]] with Python's negative indices; [IndexError] out of range. *)
Definition index_of {A : Type} (xs : list A) (i : Z) : option nat :=
  let n := Z.of_nat (List.length xs) in
  if (0 <=? i)%Z && (i <? n)%Z then Some (Z.to_nat i)
  else if (i <? 0)%Z && (- n <=? i)%Z then Some (Z.to_nat (n + i))
  else None.

Definition getitem {A : Type} (xs : list A) (i : Z) : Exc A :=
  match index_of xs i with
  | Some k => match nth_error xs k with
              | Some x => Return x
              | None => Raise "list index out of range"
              end
  | None => Raise "list index out of range"
  end.

Fixpoint update {A : Type} (xs : list A) (k : nat) (x : A) : list A :=
  match xs, k with
  | [], _ => []
  | _ :: xs', O => x :: xs'
  | y :: xs', S k' => y :: update xs' k' x
  end.

(** [xs[i] = x] *)
Definition setitem {A : Type} (xs : list A) (i : Z) (x : A) : Exc (list A) :=
  match index_of xs i with
  | Some k => Return (update xs k x)
  | None => Raise "list assignment index out of range"
  end.

(** [int(s)] in base 10: surrounding white space, an optional sign, digits
    with single underscores between them; [None] is [ValueError].  The
    white space [int] skips is not [str.isspace]: below 127 it is C's
    (TAB..CR and SPACE, so FS..US are refused), above it the Unicode
    spaces (NEL, NBSP).  The interpreter's limit on the number of digits
    ([sys.set_int_max_str_digits], 4300 unless it is changed or switched
    off) is a setting of the interpreter and is not modelled: the numbers
    read here are line numbers. *)
Definition isspace_int (c : ascii) : bool :=
  let n := nat_of_ascii c in
  ((9 <=? n) && (n <=? 13)) || (n =? 32) || (n =? 133) || (n =? 160).

Fixpoint lstrip_int (s : string) : string :=
  match s with
  | "" => ""
  | String c s' => if isspace_int c then lstrip_int s' else s
  end.

Fixpoint rstrip_int (s : string) : string :=
  match s with
  | "" => ""
  | String c s' =>
      match rstrip_int s' with
      | "" => if isspace_int c then "" else String c ""
      | r => String c r
      end
  end.

Definition isdigit (c : ascii) : bool :=
  let n := nat_of_ascii c in (48 <=? n) && (n <=? 57).

Fixpoint digits (s : string) (acc : Z) (after_digit : bool) : option Z :=
  match s with
  | "" => if after_digit then Some acc else None
  | String c s' =>
      if isdigit c
      then digits s' (10 * acc + Z.of_nat (nat_of_ascii c - 48)) true
      else if (c =? "_")%char && after_digit then digits s' acc false
      else None
  end.

Definition int (s : string) : option Z :=
  match rstrip_int (lstrip_int s) with
  | String "-" s' => option_map Z.opp (digits s' 0 false)
  | String "+" s' => digits s' 0 false
  | s' => digits s' 0 false
  end.

(** [str(n)] for a non-negative integer *)
Definition str_nat (n : nat) : string := NilZero.string_of_uint (Nat.to_uint n).

(** [str(z)] for an integer *)
Definition str_int (z : Z) : string :=
  if (z <? 0)%Z then "-" ++ str_nat (Z.to_nat (- z)) else str_nat (Z.to_nat z).

(** [len(s.encode('utf-8'))] *)
Fixpoint utf8_len (s : string) : nat :=
  match s with
  | "" => 0
  | String c s' => (if nat_of_ascii c <? 128 then 1 else 2) + utf8_len s'
  end.

(** Two shapes of text: digits only, and without [:]. *)
Fixpoint all_digits (s : string) : bool :=
  match s with
  | "" => true
  | String c s' => isdigit c && all_digits s'
  end.

Fixpoint no_colon (s : string) : bool :=
  match s with
  | "" => true
  | String c s' => negb (c =? ":")%char && no_colon s'
  end.

(** Three notions the proofs below use: a line with its tabs expanded as
    [auto_fix_indentation] expands them, a text that does not begin with
    white space, and a pattern without TAB and SPACE. *)
Definition expand_tabs (s : string) : string := replace (String TAB "") "  " s.

Definition head_nonspace (s : string) : bool :=
  match s with
  | "" => true
  | String c _ => negb (isspace c)
  end.

Fixpoint plain (p : string) : bool :=
  match p with
  | "" => true
  | String a p' => negb (a =? TAB)%char && negb (a =? " ")%char && plain p'
  end.

End Py.

(** ** [structurer.py]: class [KubeStructurer] *)

Module KubeStructurer.

Definition nl : string := String Py.LF "".
Definition cr : string := String Py.CR "".
Definition tab : string := String Py.TAB "".

(** What [self.yaml.load] followed by [self.yaml.dump] does on a text: the
    dumped buffer, a [YAMLError] with its mark (0-based line and column,
    when it has one) and [str(e)], or any other exception. *)
Inductive Outcome : Type :=
| Dumped (text : string)
| YAMLError (mark : option (nat * nat)) (msg : string)
| OtherError (msg : string).

Definition STRUCTURE_OK := "STRUCTURE_OK".
Definition STRUCTURE_FAIL := "STRUCTURE_FAIL".
Definition STRUCTURE_PROTECTED_SKIP := "STRUCTURE_PROTECTED_SKIP".
Definition MULTI_DOC_HANDLED := "MULTI_DOC_HANDLED".
(** [f"STRUCTURE_FIXED_{attempt+1}"] *)
Definition STRUCTURE_FIXED (n : nat) := "STRUCTURE_FIXED_" ++ Py.str_nat n.

Definition _normalize_line_endings (yaml_str : string) : string :=
  Py.rstrip (Py.replace cr nl (Py.replace (cr ++ nl) nl yaml_str)).

(** The class [[a-zA-Z0-9_-]] *)
Definition isname (c : ascii) : bool :=
  let n := nat_of_ascii c in
  ((97 <=? n) && (n <=? 122)) || ((65 <=? n) && (n <=? 90))
  || ((48 <=? n) && (n <=? 57)) || (n =? 95) || (n =? 45).

(** The prefix [[ \t]*] *)
Fixpoint skip_blanks (s : string) : string :=
  match s with
  | String c s' => if (c =? " ")%char || (c =? Py.TAB)%char then skip_blanks s' else s
  | "" => ""
  end.

(** [re.match(r'^[ \t]*[&*][a-zA-Z0-9_-]+', content)] *)
Definition _is_anchor_or_alias (line : string) : bool :=
  let content := Py.strip line in
  match skip_blanks content with
  | String c (String d _) => ((c =? "&")%char || (c =? "*")%char) && isname d
  | _ => false
  end.

Definition _is_protected_structure (line : string) : bool :=
  let content := Py.strip line in
  (Py.startswith "%YAML" content || Py.startswith "%TAG" content
   || Py.startswith "---" content || Py.startswith "..." content)
  || _is_anchor_or_alias line
  || (Py.startswith "|" content || Py.startswith ">" content).

Definition _extract_line (error_info : string) : Z :=
  if negb (Py.startswith "STRUCTURE_ERROR:L" error_info) then (-1)%Z
  else match nth_error (Py.split ":" error_info) 1 with
       | Some line_part =>
           match Py.int (Py.tail line_part) with
           | Some line_num_1based => (line_num_1based - 1)%Z
           | None => (-1)%Z
           end
       | None => (-1)%Z
       end.

(** [re.split(r'\s+#', line)[0]]: the text before the first run of white
    space that a [#] follows. *)
Fixpoint before_comment (s : string) : string :=
  match s with
  | "" => ""
  | String c s' =>
      if Py.isspace c && Py.startswith "#" (Py.lstrip s') then ""
      else String c (before_comment s')
  end.

(** The loop of [_find_parent_indent] over [i = n-1, ..., 0]. *)
Fixpoint _find_parent_indent_below (lines : list string) (n : nat) : Exc nat :=
  match n with
  | O => Return 0
  | S i =>
      line <- Py.getitem lines (Z.of_nat i) ;;
      let raw_content := Py.rstrip (before_comment line) in
      if (Py.strip raw_content =? "")%string
         || Py.startswith "#" (Py.strip raw_content)
         || _is_protected_structure raw_content
      then _find_parent_indent_below lines i
      else
        let content := Py.lstrip raw_content in
        if Py.endswith ":" raw_content && negb (Py.startswith "- " content)
        then Return (String.length raw_content - String.length content)
        else _find_parent_indent_below lines i
  end.

Definition _find_parent_indent (lines : list string) (err_line : Z) : Exc nat :=
  _find_parent_indent_below lines (Z.to_nat err_line).

Definition auto_fix_indentation (yaml_str error_info : string) : Exc string :=
  let err_line := _extract_line error_info in
  if (err_line =? -1)%Z then Return yaml_str else
  let lines := Py.splitlines yaml_str in
  if (err_line >=? Z.of_nat (List.length lines))%Z then Return yaml_str else
  target_line <- Py.getitem lines err_line ;;
  let target_line := Py.replace tab "  " target_line in
  if _is_protected_structure target_line then Return yaml_str else
  let current_indent := String.length target_line - String.length (Py.lstrip target_line) in
  parent_indent <- _find_parent_indent lines err_line ;;
  let target_indent :=
    if Py.startswith "-" (Py.strip target_line)
    then parent_indent + 2
    else parent_indent + 2 in
  if negb (current_indent =? target_indent)
     || Py.contains tab target_line
     || negb (current_indent mod 2 =? 0)
  then
    let fixed_line := Py.rstrip (Py.repeat " " target_indent ++ Py.lstrip target_line) in
    lines <- Py.setitem lines err_line fixed_line ;;
    Return (Py.join nl lines)
  else Return yaml_str.

(** The text [validate_and_roundtrip] builds for a failure. *)
Definition failure_text (mark : option (nat * nat)) (e : string) : string :=
  match mark with
  | Some (line, column) =>
      "STRUCTURE_ERROR:L" ++ Py.str_nat (line + 1) ++ ":C" ++ Py.str_nat (column + 1)
      ++ ":" ++ e
  | None => "STRUCTURE_ERROR:" ++ e
  end.

Section WithEngine.

Variable yaml : string -> Outcome.

Definition validate_and_roundtrip (clean_yaml : string) : Exc (bool * string) :=
  match yaml clean_yaml with
  | Dumped output_buffer => Return (true, Py.rstrip output_buffer)
  | YAMLError (Some (line, column)) e =>
      Return (false, "STRUCTURE_ERROR:L" ++ Py.str_nat (line + 1)
                     ++ ":C" ++ Py.str_nat (column + 1) ++ ":" ++ e)
  | YAMLError None e => Return (false, "STRUCTURE_ERROR:" ++ e)
  | OtherError e => Raise e
  end.

(** The [for attempt in range(3)] loop, over the attempts still to run. *)
Fixpoint fix_loop (attempts : list nat) (current_yaml result : string)
  : Exc (string * string) :=
  match attempts with
  | [] => Return (current_yaml, STRUCTURE_FAIL)
  | attempt :: attempts' =>
      fixed_yaml <- auto_fix_indentation current_yaml result ;;
      line <- Py.getitem (Py.splitlines fixed_yaml) (_extract_line result) ;;
      if _is_protected_structure line
      then Return (current_yaml, STRUCTURE_PROTECTED_SKIP)
      else
        v <- validate_and_roundtrip fixed_yaml ;;
        let '(valid2, result2) := v in
        if valid2 then Return (result2, STRUCTURE_FIXED (attempt + 1))
        else fix_loop attempts' fixed_yaml result2
  end.

Definition _process_single_doc (yaml_str : string) : Exc (string * string) :=
  v <- validate_and_roundtrip yaml_str ;;
  let '(valid, result) := v in
  if valid then Return (result, STRUCTURE_OK)
  else fix_loop [0; 1; 2] yaml_str result.

(** [re.split(r'\n(?=---)', s)] *)
Fixpoint split_documents (s : string) : list string :=
  match s with
  | "" => [""]
  | String c s' =>
      if (c =? Py.LF)%char && Py.startswith "---" s' then "" :: split_documents s'
      else match split_documents s' with
           | [] => [String c ""]
           | p :: ps => String c p :: ps
           end
  end.

Fixpoint process_documents (documents : list string) : Exc (list string) :=
  match documents with
  | [] => Return []
  | doc :: documents' =>
      if negb (Py.strip doc =? "")%string then
        r <- _process_single_doc doc ;;
        fixed_docs <- process_documents documents' ;;
        Return (fst r :: fixed_docs)
      else process_documents documents'
  end.

Definition _process_multi_doc (yaml_str : string) : Exc string :=
  let documents := split_documents (Py.strip yaml_str) in
  fixed_docs <- process_documents documents ;;
  Return (Py.join (nl ++ "---" ++ nl) fixed_docs).

Definition process_yaml (lexer_output : string) : Exc (string * string) :=
  let normalized := _normalize_line_endings lexer_output in
  if Py.contains "---" normalized && Py.startswith "---" (Py.strip normalized)
  then
    result <- _process_multi_doc normalized ;;
    Return (result, MULTI_DOC_HANDLED)
  else _process_single_doc normalized.

(** The repair log of one document: one record per iteration of the loop
    that was entered, with the text it started from ([current_yaml]) and
    the failure its fix is computed from ([result]). *)
Record RepairAttempt : Type := {
  attempt_number : nat;
  attempt_input : string;
  attempt_failure : string
}.

Fixpoint fix_loop_log (attempts : list nat) (current_yaml result : string)
  : list RepairAttempt :=
  match attempts with
  | [] => []
  | attempt :: attempts' =>
      {| attempt_number := attempt + 1;
         attempt_input := current_yaml;
         attempt_failure := result |}
      :: match auto_fix_indentation current_yaml result with
         | Return fixed_yaml =>
             match Py.getitem (Py.splitlines fixed_yaml) (_extract_line result) with
             | Return line =>
                 if _is_protected_structure line then []
                 else match validate_and_roundtrip fixed_yaml with
                      | Return (false, result2) =>
                          fix_loop_log attempts' fixed_yaml result2
                      | _ => []
                      end
             | Raise _ => []
             end
         | Raise _ => []
         end
  end.

Definition repair_log (yaml_str : string) : list RepairAttempt :=
  match validate_and_roundtrip yaml_str with
  | Return (false, result) => fix_loop_log [0; 1; 2] yaml_str result
  | _ => []
  end.

(** The text a standards-compliant parser accepts: the engine loads it. *)
Definition parses (text : string) : bool :=
  match yaml text with
  | Dumped _ => true
  | _ => false
  end.

End WithEngine.

End KubeStructurer.

(** ** [pipeline.py]: class [HealingPipeline] *)

Module HealingPipeline.

Import KubeStructurer.

(** A value that is a [bool] or a [str]: [partial_heal] is the value of an
    [and] chain whose last operand is [final_yaml.strip()]. *)
Inductive PyVal : Type :=
| PyBool (b : bool)
| PyStr (s : string).

Definition truthy (v : PyVal) : bool :=
  match v with
  | PyBool b => b
  | PyStr s => negb (s =? "")%string
  end.

Record Change : Type := {
  line : nat;
  original : string;
  fixed : string;
  indent_original : nat;
  indent_fixed : nat
}.

(** The dictionary of [full_healing_report], or the one [_error_response]
    builds. *)
Inductive Report : Type :=
| HealingReport (status : string) (total_lines lines_changed : nat)
    (changes : list Change)
| ErrorReport (total_lines lines_changed : nat) (changes : list Change)
    (error : string) (file_path : option string).

Record Envelope : Type := {
  content : string;
  status : string;
  report : Report;
  success : bool;
  partial_heal : PyVal;
  phase1_complete : bool;
  input_type : option string;
  input_size_bytes : nat
}.

Definition indent_of (s : string) : nat :=
  String.length s - String.length (Py.lstrip s).

(** [enumerate(zip(original_lines, final_lines))] from index [i] on. *)
Fixpoint report_changes (i : nat) (original_lines final_lines : list string)
  : list Change :=
  match original_lines, final_lines with
  | orig :: os, fixed :: fs =>
      let rest := report_changes (i + 1) os fs in
      if negb (orig =? fixed)%string
      then {| line := i + 1; original := orig; fixed := fixed;
              indent_original := indent_of orig;
              indent_fixed := indent_of fixed |} :: rest
      else rest
  | _, _ => []
  end.

Definition full_healing_report (original final status : string) : Report :=
  let original_lines := Py.splitlines original in
  let final_lines := Py.splitlines final in
  let changes := report_changes 0 original_lines final_lines in
  HealingReport status (List.length original_lines) (List.length changes) changes.

Definition _error_response (content status error : string)
  (file_path : option string) : Envelope :=
  let content_bytes := if (content =? "")%string then 0 else Py.utf8_len content in
  let lines := if (content =? "")%string then 0
               else List.length (Py.splitlines content) in
  {| content := content;
     status := status;
     report := ErrorReport lines 0 [] error file_path;
     success := false;
     partial_heal := PyBool false;
     phase1_complete := false;
     input_type := None;
     input_size_bytes := content_bytes |}.

(** The statuses [process_yaml] can return, the statuses of the input
    guards that are fixed texts, and the twelve names of the status
    vocabulary. *)
Definition structurer_statuses : list string :=
  [STRUCTURE_OK; STRUCTURE_FIXED 1; STRUCTURE_FIXED 2; STRUCTURE_FIXED 3;
   MULTI_DOC_HANDLED; STRUCTURE_PROTECTED_SKIP; STRUCTURE_FAIL].

Definition fixed_guard_statuses : list string :=
  ["MISSING_INPUT"; "FILE_TOO_LARGE"; "EMPTY_INPUT"].

Definition status_vocabulary : list string :=
  ["STRUCTURE_OK"; "STRUCTURE_FIXED_1"; "STRUCTURE_FIXED_2";
   "STRUCTURE_FIXED_3"; "MULTI_DOC_HANDLED"; "STRUCTURE_PROTECTED_SKIP";
   "STRUCTURE_FAIL"; "MISSING_INPUT"; "FILE_READ_ERROR"; "FILE_TOO_LARGE";
   "EMPTY_INPUT"; "PIPELINE_ERROR"].

(** An input guard rejected the input: one of the fixed guard statuses, or
    the status of a file that could not be read. *)
Definition guard_rejected (status : string) : bool :=
  existsb (String.eqb status) fixed_guard_statuses
  || Py.startswith "FILE_READ_ERROR" status.

Definition success_statuses : list string :=
  ["STRUCTURE_OK"; "STRUCTURE_FIXED_1"; "STRUCTURE_FIXED_2";
   "STRUCTURE_FIXED_3"; "MULTI_DOC_HANDLED"].

Definition mem (s : string) (l : list string) : bool :=
  existsb (String.eqb s) l.

Section WithCollaborators.

(** The YAML engine of the structurer. *)
Variable yaml : string -> Outcome.
(** [RawLexer.process_string] *)
Variable process_string : string -> Exc string.
(** [Path.read_text(encoding='utf-8-sig')]; a path is its text. *)
Variable read_text : string -> Exc string.
(** The constructor's [max_size_mb]. *)
Variable max_size_mb : Z.
(** The text of [f"{content_bytes/1024/1024:.1f}"], a floating-point
    division and rounding. *)
Variable format_mb : nat -> string.

(** The text a call works on: the content it is given, or the text of the
    file it is given. *)
Definition text_of (raw_content file_path : option string) (raw : string) : Prop :=
  (file_path = None /\ raw_content = Some raw)
  \/ (exists path, file_path = Some path /\ read_text path = Return raw).

(** The body of the [try] block. *)
Definition run_phases (raw_content : string) (file_path : option string)
  (content_bytes : nat) : Exc Envelope :=
  lexed_content <- process_string raw_content ;;
  r <- process_yaml yaml lexed_content ;;
  let '(final_yaml, status) := r in
  let report := full_healing_report raw_content final_yaml status in
  let is_structural_success := mem status success_statuses in
  let is_partially_healed :=
    if Py.startswith "STRUCTURE_FAIL" status
       && negb (final_yaml =? lexed_content)%string
    then PyStr (Py.strip final_yaml)
    else PyBool false in
  Return {| content := final_yaml;
            status := status;
            report := report;
            success := is_structural_success;
            partial_heal := is_partially_healed;
            phase1_complete := true;
            input_type := Some (match file_path with
                                | None => "string"
                                | Some _ => "file"
                                end);
            input_size_bytes := content_bytes |}.

(** [heal_manifest] from the size guard on, with the content in hand. *)
Definition heal_content (raw_content : string) (file_path : option string)
  : Envelope :=
  let content_bytes := Py.utf8_len raw_content in
  if (Z.of_nat content_bytes >? max_size_mb * 1024 * 1024)%Z then
    _error_response (Py.take 1000 raw_content) "FILE_TOO_LARGE"
      ("File exceeds " ++ Py.str_int max_size_mb ++ "MB limit ("
       ++ format_mb content_bytes ++ "MB)") None
  else if (raw_content =? "")%string || (Py.strip raw_content =? "")%string then
    _error_response "" "EMPTY_INPUT" "No input provided" None
  else
    match run_phases raw_content file_path content_bytes with
    | Return envelope => envelope
    | Raise e =>
        _error_response raw_content ("PIPELINE_ERROR: " ++ Py.take 100 e) e None
    end.

Definition heal_manifest (raw_content file_path : option string) : Envelope :=
  match raw_content, file_path with
  | None, None =>
      _error_response "" "MISSING_INPUT" "No content or file provided" None
  | _, Some path =>
      match read_text path with
      | Return text => heal_content text file_path
      | Raise e => _error_response "" ("FILE_READ_ERROR: " ++ e) e file_path
      end
  | Some text, None => heal_content text None
  end.

Definition heal_manifests (contents : list string) : list Envelope :=
  let valid_contents :=
    filter (fun c => negb (c =? "")%string && negb (Py.strip c =? "")%string)
           contents in
  map (fun c => heal_manifest (Some c) None) valid_contents.

Definition heal_files (file_paths : list string) : list Envelope :=
  map (fun fp => heal_manifest None (Some fp)) file_paths.

End WithCollaborators.

Definition is_kubectl_ready (result : Envelope) : bool := success result.

End HealingPipeline.

(** ** Scripted collaborators for the worked examples *)

Module Scenarios.

Import KubeStructurer HealingPipeline.

Definition text (lines : list string) : string := Py.join nl lines.

(** An engine that answers from a script and loads every other text,
    dumping it back as it is. *)
Fixpoint scripted (script : list (string * Outcome)) (t : string) : Outcome :=
  match script with
  | [] => Dumped t
  | (t', o) :: script' => if (t =? t')%string then o else scripted script' t
  end.

(** A lexer that has nothing to repair, a directory without files, and the
    size in MiB cut to one decimal. *)
Definition lexer_id (raw : string) : Exc string := Return raw.

Definition no_files (path : string) : Exc string :=
  Raise ("[Errno 2] No such file or directory: '" ++ path ++ "'").

Definition format_mb_cut (n : nat) : string :=
  let tenths := Z.to_nat (Z.of_nat n * 10 / 1048576) in
  Py.str_nat (tenths / 10) ++ "." ++ Py.str_nat (tenths mod 10).

(** An unterminated flow sequence in a stream that opens with [---]: the
    parser stops at the end of line 2, before and after the fix. *)
Definition flow_doc : string := text ["---"; "a: ["].
Definition flow_doc_fixed : string := text ["---"; "  a: ["].
Definition flow_engine : string -> Outcome :=
  scripted
    [(flow_doc, YAMLError (Some (1, 4)) "while parsing a flow node");
     (flow_doc_fixed, YAMLError (Some (1, 6)) "while parsing a flow node")].

(** The same flow sequence in a stream without [---]. *)
Definition flow_top : string := "a: [".
Definition flow_top_fixed : string := "  a: [".
Definition flow_top_engine : string -> Outcome :=
  scripted
    [(flow_top, YAMLError (Some (0, 4)) "while parsing a flow node");
     (flow_top_fixed, YAMLError (Some (0, 6)) "while parsing a flow node")].

(** A key indented by one space, then a second document: the parser stops
    at line 3 first and, once that line is fixed, at the [---] of line 4,
    where a single document was expected. *)
Definition two_docs : string :=
  text ["a:"; "  b: 1"; " c: 2"; "---"; "d: 1"].
Definition two_docs_fixed : string :=
  text ["a:"; "  b: 1"; "  c: 2"; "---"; "d: 1"].
Definition two_docs_engine : string -> Outcome :=
  scripted
    [(two_docs, YAMLError (Some (2, 1)) "while parsing a block mapping");
     (two_docs_fixed,
      YAMLError (Some (3, 0)) "expected a single document in the stream")].

(** A control character, which the engine's reader refuses with an error
    that has no mark, in a document that ends with [...]. *)
Definition control_doc : string :=
  text ["a: " ++ String (ascii_of_nat 1) ""; "..."].
Definition reader_engine : string -> Outcome :=
  scripted
    [(control_doc,
      YAMLError None "unacceptable character #x0001: special characters are not allowed")].

(** An engine that fails with an exception that is not a [YAMLError]. *)
Definition faulty_engine (t : string) : Outcome :=
  OtherError "maximum recursion depth exceeded".

(** A line with a tab between key and value, indented by three spaces. *)
Definition tabbed_doc : string := text ["a:"; "   b:" ++ tab ++ "c"].

(** An over-indented key between two protected lines, a document marker
    above and an alias below. *)
Definition guarded_doc : string := text ["---"; "a:"; "   b: 1"; "*ref"].
Definition guarded_doc_fixed : string := text ["---"; "a:"; "  b: 1"; "*ref"].

(** An alias that nothing defines, on a line of its own: the engine stops
    at that line, which the fix leaves alone. *)
Definition alias_doc : string := text ["a: 1"; "*ref"].
Definition alias_engine : string -> Outcome :=
  scripted [(alias_doc, YAMLError (Some (1, 0)) "found undefined alias")].

End Scenarios.
(** ** Notions for the further properties *)

Module Notions.

Import KubeStructurer.

(** What [_find_parent_indent] reads of a line: the line without its
    trailing comment and trailing white space. *)
Definition raw_content_of (line : string) : string :=
  Py.rstrip (before_comment line).

(** The lines the backward scan stops at: not blank, not a comment, not
    protected, ending with [:] and not a sequence item. *)
Definition is_parent_key (line : string) : bool :=
  let raw_content := raw_content_of line in
  negb ((Py.strip raw_content =? "")%string
        || Py.startswith "#" (Py.strip raw_content)
        || _is_protected_structure raw_content)
  && (Py.endswith ":" raw_content
      && negb (Py.startswith "- " (Py.lstrip raw_content))).

Definition key_indent (line : string) : nat :=
  String.length (raw_content_of line)
  - String.length (Py.lstrip (raw_content_of line)).

End Notions.

(** The fields of a report, whichever dictionary it is. *)
Module ReportFields.

Import HealingPipeline.

Definition total_lines (r : Report) : nat :=
  match r with
  | HealingReport _ n _ _ => n
  | ErrorReport n _ _ _ _ => n
  end.

Definition lines_changed (r : Report) : nat :=
  match r with
  | HealingReport _ _ n _ => n
  | ErrorReport _ n _ _ _ => n
  end.

Definition changes (r : Report) : list Change :=
  match r with
  | HealingReport _ _ _ cs => cs
  | ErrorReport _ _ cs _ _ => cs
  end.

End ReportFields.

(** ** [pipeline.py]: [batch_success_rate] *)

Module BatchSummary.

Import HealingPipeline.

(** A dictionary with text keys, in insertion order, and [d.get(key)]. *)
Fixpoint dict_get {V : Type} (key : string) (d : list (string * V)) : option V :=
  match d with
  | [] => None
  | (k, v) :: d' => if (k =? key)%string then Some v else dict_get key d'
  end.

(** [sum(1 for r in results if p(r))] *)
Definition count {A : Type} (p : A -> bool) (l : list A) : nat :=
  List.length (filter p l).

Section WithFloats.

(** Python's floats: the type, [0.0], and [a / b] on two integers. *)
Variable float : Type.
Variable float_zero : float.
Variable true_div : nat -> nat -> float.

Inductive Value : Type :=
| VInt (z : Z)
| VFloat (x : float).

Definition batch_success_rate (results : list Envelope)
  : list (string * Value) :=
  match results with
  | [] =>
      [("success_rate", VFloat float_zero); ("total", VInt 0);
       ("successful", VInt 0); ("partial", VInt 0); ("failed", VInt 0)]
  | _ =>
      let successful := count success results in
      let partial := count (fun r => truthy (partial_heal r)) results in
      let total := List.length results in
      [("success_rate", VFloat (true_div successful total));
       ("total", VInt (Z.of_nat total));
       ("successful", VInt (Z.of_nat successful));
       ("partial_heal", VInt (Z.of_nat partial));
       ("failed",
        VInt (Z.of_nat total - Z.of_nat successful - Z.of_nat partial))]
  end.

End WithFloats.

End BatchSummary.

(** ** [engine.py]: class [AuditEngineV2]

    The file system is a state [FS] the operations read and change; a path
    is its text.  An operation that changes the file system returns the
    new state and, when it raised, the text of the exception.  The
    pathlib operations on names are parameters. *)

Module AuditEngine.

Import HealingPipeline.

(** The dictionary [_file_error] builds, or the envelope of the pipeline
    with the keys [audit_and_heal_file] adds ([written] is there only when
    it is [True]). *)
Inductive AuditResult : Type :=
| FileError (file_path status error : string)
| Audited (envelope : Envelope) (backup_created backup_warning : option string)
    (written : bool) (write_error : option string) (file_path : string)
    (file_size_bytes : nat).

(** [result["success"] = False] *)
Definition downgrade (e : Envelope) : Envelope :=
  {| content := content e; status := status e; report := report e;
     success := false; partial_heal := partial_heal e;
     phase1_complete := phase1_complete e; input_type := input_type e;
     input_size_bytes := input_size_bytes e |}.

Section WithWorld.

Variable FS : Type.

(** The pipeline's collaborators. *)
Variable yaml : string -> KubeStructurer.Outcome.
Variable process_string : string -> Exc string.
Variable format_mb : nat -> string.

(** [(self.workspace / relative_path).resolve()] *)
Variable resolve : FS -> string -> string.
(** [Path.exists], [Path.is_file], [os.access(p, os.R_OK)],
    [os.access(p, os.W_OK)], [Path.read_text], [Path.stat().st_size] *)
Variable exists_ : FS -> string -> bool.
Variable is_file : FS -> string -> bool.
Variable readable : FS -> string -> bool.
Variable writable : FS -> string -> bool.
Variable read_text : FS -> string -> Exc string.
Variable stat_size : FS -> string -> Exc nat.
(** [Path.parent], [Path.with_suffix], [Path.stem], [Path.with_name],
    [Path.relative_to(self.workspace)] *)
Variable parent : string -> string.
Variable with_suffix : string -> string -> string.
Variable stem : string -> string.
Variable with_name : string -> string -> string.
Variable relative_to_workspace : string -> Exc string.
(** [shutil.copy2], [Path.write_text], [os.replace], [Path.unlink] *)
Variable copy2 : FS -> string -> string -> FS * option string.
Variable write_text : FS -> string -> string -> FS * option string.
Variable replace : FS -> string -> string -> FS * option string.
Variable unlink : FS -> string -> FS * option string.

(** The [while True] loop of [_create_unique_backup], from [counter] on;
    [None] when [fuel] rounds did not find a free name. *)
Fixpoint backup_search (fuel : nat) (fs : FS) (target_path : string)
  (counter : nat) : option string :=
  match fuel with
  | O => None
  | S fuel' =>
      let new_name :=
        stem target_path ++ "-" ++ Py.str_nat counter ++ ".kubecuro.backup" in
      let backup_path := with_name target_path new_name in
      if negb (exists_ fs backup_path) then Some backup_path
      else backup_search fuel' fs target_path (counter + 1)
  end.

Definition _create_unique_backup (fuel : nat) (fs : FS) (target_path : string)
  : option string :=
  let backup_path := with_suffix target_path ".kubecuro.backup" in
  if exists_ fs backup_path then backup_search fuel fs target_path 1
  else Some backup_path.

(** The [except] branch of [_atomic_write]. *)
Definition atomic_write_failed (fs : FS) (temp_file e : string)
  : FS * option string :=
  if exists_ fs temp_file then
    match unlink fs temp_file with
    | (fs', None) => (fs', Some ("Atomic write failed: " ++ e))
    | (fs', Some e') => (fs', Some e')
    end
  else (fs, Some ("Atomic write failed: " ++ e)).

Definition _atomic_write (fs : FS) (target_path content : string)
  : FS * option string :=
  let temp_file := with_suffix target_path ".kubecuro.tmp" in
  match write_text fs temp_file content with
  | (fs1, None) =>
      match replace fs1 temp_file target_path with
      | (fs2, None) => (fs2, None)
      | (fs2, Some e) => atomic_write_failed fs2 temp_file e
      end
  | (fs1, Some e) => atomic_write_failed fs1 temp_file e
  end.

Definition _file_error (relative_path status error : string) : AuditResult :=
  FileError relative_path status error.

(** [result["file_size_bytes"]] *)
Definition file_size (fs : FS) (full_path : string) : nat :=
  match stat_size fs full_path with
  | Return n => n
  | Raise _ => 0
  end.

Definition audit_and_heal_file (fuel : nat) (fs : FS) (relative_path : string)
  (dry_run force_write : bool) : option (FS * AuditResult) :=
  let full_path := resolve fs relative_path in
  if negb (exists_ fs full_path) then
    Some (fs, _file_error relative_path "FILE_NOT_FOUND"
                ("File not found: " ++ full_path))
  else if negb (is_file fs full_path) then
    Some (fs, _file_error relative_path "NOT_A_FILE"
                ("Not a regular file: " ++ full_path))
  else if negb (readable fs full_path) then
    Some (fs, _file_error relative_path "PERMISSION_DENIED"
                ("Read access denied: " ++ full_path))
  else if negb dry_run
          && (negb (writable fs full_path)
              || negb (writable fs (parent full_path))) then
    Some (fs, _file_error relative_path "NO_WRITE_PERMISSION"
                "Write access denied")
  else
    let result :=
      heal_manifest yaml process_string (read_text fs) 10 format_mb
        None (Some full_path) in
    let should_write :=
      negb dry_run
      && (success result || (truthy (partial_heal result) && force_write)) in
    if should_write then
      match _create_unique_backup fuel fs full_path with
      | None => None
      | Some backup_path =>
          let '(fs1, copied) := copy2 fs full_path backup_path in
          let '(backup_created, backup_warning) :=
            match copied with
            | None =>
                match relative_to_workspace backup_path with
                | Return rel => (Some rel, None)
                | Raise e => (None, Some ("Backup failed: " ++ e))
                end
            | Some e => (None, Some ("Backup failed: " ++ e))
            end in
          let '(fs2, failed) := _atomic_write fs1 full_path (content result) in
          Some (fs2,
                match failed with
                | None =>
                    Audited result backup_created backup_warning true None
                      relative_path (file_size fs2 full_path)
                | Some e =>
                    Audited (downgrade result) backup_created backup_warning
                      false (Some e) relative_path (file_size fs2 full_path)
                end)
      end
    else
      Some (fs, Audited result None None false None relative_path
                  (file_size fs full_path)).

End WithWorld.

End AuditEngine.

(** ** Scripted collaborators for the further examples *)

Module MoreScenarios.

Import KubeStructurer HealingPipeline Scenarios.

(** An engine that loads every text and dumps it without a leading [---]
    line, with a final line feed. *)
Definition drop_marker (doc : string) : string :=
  if Py.startswith ("---" ++ nl) doc then substring 4 (String.length doc - 4) doc
  else doc.

Definition canonical_dump (doc : string) : string := drop_marker doc ++ nl.

Definition canonical_engine (t : string) : Outcome := Dumped (canonical_dump t).

(** An engine whose failure has no mark and a message that begins with a
    line label. *)
Definition labelled_message : string := "L" ++ Py.str_nat (1 + 1) ++ ":" ++ " duplicate key".
Definition labelled_engine : string -> Outcome :=
  scripted [(two_docs, YAMLError None labelled_message)].

(** Two documents in a stream that opens with [---]. *)
Definition two_doc_stream : string := text ["---"; "a: 1"; "---"; "b: 2"; ""].

(** The exact quotient in place of a float. *)
Definition quotient (a b : nat) : nat * nat := (a, b).

(** A file system as the list of its files with their texts, the newest
    first; names stand for paths, and every file may be read and
    written. *)
Definition Files : Type := list (string * string).

Fixpoint file_text (fs : Files) (path : string) : option string :=
  match fs with
  | [] => None
  | (p, t) :: fs' => if (p =? path)%string then Some t else file_text fs' path
  end.

Definition file_exists (fs : Files) (path : string) : bool :=
  match file_text fs path with
  | Some _ => true
  | None => false
  end.

Definition file_read (fs : Files) (path : string) : Exc string :=
  match file_text fs path with
  | Some t => Return t
  | None => Raise ("[Errno 2] No such file or directory: '" ++ path ++ "'")
  end.

Definition file_stat (fs : Files) (path : string) : Exc nat :=
  match file_text fs path with
  | Some t => Return (Py.utf8_len t)
  | None => Raise "[Errno 2] No such file or directory"
  end.

Definition always (fs : Files) (path : string) : bool := true.

Definition resolve_name (fs : Files) (relative_path : string) : string :=
  relative_path.

Definition file_remove (fs : Files) (path : string) : Files :=
  filter (fun entry => negb (fst entry =? path)%string) fs.

Definition file_copy (fs : Files) (src dst : string) : Files * option string :=
  match file_text fs src with
  | Some t => ((dst, t) :: fs, None)
  | None => (fs, Some "[Errno 2] No such file or directory")
  end.

Definition file_write (fs : Files) (path content : string)
  : Files * option string :=
  ((path, content) :: fs, None).

Definition file_replace (fs : Files) (src dst : string) : Files * option string :=
  match file_text fs src with
  | Some t => ((dst, t) :: file_remove fs src, None)
  | None => (fs, Some "[Errno 2] No such file or directory")
  end.

Definition file_unlink (fs : Files) (path : string) : Files * option string :=
  (file_remove fs path, None).

(** The name up to its first dot, and the name with another suffix. *)
Fixpoint name_stem (name : string) : string :=
  match name with
  | "" => ""
  | String c name' => if (c =? ".")%char then "" else String c (name_stem name')
  end.

Definition name_with_suffix (name suffix : string) : string :=
  name_stem name ++ suffix.

Definition name_with_name (path name : string) : string := name.

Definition name_parent (path : string) : string := ".".

Definition name_relative (path : string) : Exc string := Return path.

(** A workspace with a manifest that loads, and with the backups of two
    earlier runs. *)
Definition workspace : Files :=
  [("svc.yaml", "a: 1" ++ nl);
   ("svc.kubecuro.backup", "old");
   ("svc-1.kubecuro.backup", "older")].

Definition audit_files :=
  AuditEngine.audit_and_heal_file Files canonical_engine lexer_id format_mb_cut
    resolve_name file_exists file_exists always always file_read file_stat
    name_parent name_with_suffix name_stem name_with_name name_relative
    file_copy file_write file_replace file_unlink.

End MoreScenarios.

(** * Properties *)

Module PyFacts.

Import Py.

Lemma expand_tabs_cons c s :
  expand_tabs (String c s) =
  if (c =? TAB)%char then String " " (String " " (expand_tabs s))
  else String c (expand_tabs s).
Proof.
  unfold expand_tabs, replace. cbn [replace_from prefix String.length Nat.sub].
  destruct (ascii_dec TAB c) as [<-|Hne].
  - rewrite Ascii.eqb_refl. destruct s; reflexivity.
  - destruct (Ascii.eqb_spec c TAB) as [->|_]; [now elim Hne | reflexivity].
Qed.

Arguments expand_tabs : simpl never.

Lemma isspace_TAB : isspace TAB = true.
Proof. reflexivity. Qed.

Lemma lstrip_expand_tabs s : lstrip (expand_tabs s) = expand_tabs (lstrip s).
Proof.
  induction s as [|c s IH]; [reflexivity|].
  rewrite expand_tabs_cons.
  destruct (Ascii.eqb_spec c TAB) as [->|Hne].
  - exact IH.
  - cbn [lstrip]. destruct (isspace c); [exact IH|].
    rewrite expand_tabs_cons. now destruct (Ascii.eqb_spec c TAB).
Qed.

Lemma expand_tabs_empty s : expand_tabs s = "" -> s = "".
Proof.
  destruct s as [|c s]; [reflexivity|].
  rewrite expand_tabs_cons. destruct (c =? TAB)%char; discriminate.
Qed.

Lemma rstrip_space c s :
  isspace c = true ->
  rstrip (String c s) = match rstrip s with "" => "" | r => String c r end.
Proof. intros H. cbn [rstrip]. rewrite H. now destruct (rstrip s). Qed.

Lemma rstrip_nonspace c s :
  isspace c = false -> rstrip (String c s) = String c (rstrip s).
Proof. intros H. cbn [rstrip]. rewrite H. now destruct (rstrip s). Qed.

Lemma expand_tabs_nonempty c s : exists d r, expand_tabs (String c s) = String d r.
Proof.
  rewrite expand_tabs_cons. destruct (c =? TAB)%char; eauto.
Qed.

Lemma rstrip_expand_tabs s : rstrip (expand_tabs s) = expand_tabs (rstrip s).
Proof.
  induction s as [|c s IH]; [reflexivity|].
  rewrite expand_tabs_cons.
  destruct (Ascii.eqb_spec c TAB) as [->|Hne].
  - rewrite !(rstrip_space " ") by reflexivity.
    rewrite (rstrip_space TAB) by reflexivity. rewrite IH.
    destruct (rstrip s) as [|d r]; [reflexivity|].
    destruct (expand_tabs_nonempty d r) as (d' & r' & E). rewrite E, <- E.
    rewrite (expand_tabs_cons TAB). now rewrite Ascii.eqb_refl.
  - destruct (isspace c) eqn:Hc.
    + rewrite !rstrip_space by exact Hc. rewrite IH.
      destruct (rstrip s) as [|d r]; [reflexivity|].
      destruct (expand_tabs_nonempty d r) as (d' & r' & E). rewrite E, <- E.
      rewrite (expand_tabs_cons c). now destruct (Ascii.eqb_spec c TAB).
    + rewrite !rstrip_nonspace by exact Hc. rewrite IH.
      rewrite expand_tabs_cons. now destruct (Ascii.eqb_spec c TAB).
Qed.

Lemma strip_expand_tabs s : strip (expand_tabs s) = expand_tabs (strip s).
Proof. unfold strip. now rewrite lstrip_expand_tabs, rstrip_expand_tabs. Qed.

Lemma lstrip_head s : head_nonspace (lstrip s) = true.
Proof.
  induction s as [|c s IH]; [reflexivity|].
  cbn [lstrip]. destruct (isspace c) eqn:E; [exact IH|].
  cbn [head_nonspace]. now rewrite E.
Qed.

Lemma lstrip_id s : head_nonspace s = true -> lstrip s = s.
Proof.
  destruct s as [|c s]; [reflexivity|].
  cbn [head_nonspace lstrip]. now destruct (isspace c).
Qed.

Lemma rstrip_head s : head_nonspace s = true -> head_nonspace (rstrip s) = true.
Proof.
  destruct s as [|c s]; [reflexivity|].
  cbn [head_nonspace]. intros H. apply negb_true_iff in H.
  rewrite rstrip_nonspace by exact H. cbn [head_nonspace]. now rewrite H.
Qed.

Lemma rstrip_idem s : rstrip (rstrip s) = rstrip s.
Proof.
  induction s as [|c s IH]; [reflexivity|].
  destruct (isspace c) eqn:Hc.
  - rewrite rstrip_space by exact Hc.
    destruct (rstrip s) as [|d r]; [reflexivity|].
    rewrite rstrip_space by exact Hc. now rewrite IH.
  - rewrite !rstrip_nonspace by exact Hc. now rewrite IH.
Qed.

Lemma rstrip_spaces_app n s :
  rstrip (repeat " " n ++ s) =
  match rstrip s with "" => "" | r => repeat " " n ++ r end.
Proof.
  induction n as [|n IH]; cbn [repeat append].
  - now destruct (rstrip s).
  - rewrite rstrip_space by reflexivity. rewrite IH.
    destruct (rstrip s) as [|d r]; [reflexivity|].
    destruct n; reflexivity.
Qed.

Lemma lstrip_spaces_app n s : lstrip (repeat " " n ++ s) = lstrip s.
Proof. induction n as [|n IH]; [reflexivity|exact IH]. Qed.

Lemma strip_reindented n s :
  strip (rstrip (repeat " " n ++ lstrip s)) = strip s.
Proof.
  unfold strip. rewrite rstrip_spaces_app.
  pose proof (rstrip_head _ (lstrip_head s)) as Hh.
  pose proof (rstrip_idem (lstrip s)) as Hi.
  destruct (rstrip (lstrip s)) as [|d r] eqn:E; [reflexivity|].
  rewrite lstrip_spaces_app, (lstrip_id _ Hh). exact Hi.
Qed.

Lemma reindented_nonempty n s :
  strip s <> "" ->
  rstrip (repeat " " n ++ lstrip s) = repeat " " n ++ strip s.
Proof.
  unfold strip. rewrite rstrip_spaces_app.
  destruct (rstrip (lstrip s)); [now intros H; elim H|reflexivity].
Qed.

Lemma expand_tabs_id s :
  contains (String TAB "") s = false -> expand_tabs s = s.
Proof.
  induction s as [|c s IH]; [reflexivity|].
  cbn [contains prefix]. rewrite expand_tabs_cons.
  destruct (ascii_dec TAB c) as [<-|Hne].
  - destruct s; discriminate.
  - cbn [orb]. intros H. rewrite (IH H).
    destruct (Ascii.eqb_spec c TAB) as [->|_]; [now elim Hne|reflexivity].
Qed.

Lemma expand_tabs_no_tab s : contains (String TAB "") (expand_tabs s) = false.
Proof.
  induction s as [|c s IH]; [reflexivity|].
  rewrite expand_tabs_cons.
  destruct (Ascii.eqb_spec c TAB) as [->|Hne].
  - exact IH.
  - cbn [contains prefix].
    destruct (ascii_dec TAB c) as [<-|_]; [now elim Hne|exact IH].
Qed.

Lemma index_of_bound {A} (xs : list A) i k :
  index_of xs i = Some k -> k < List.length xs.
Proof.
  unfold index_of.
  destruct ((0 <=? i)%Z && _) eqn:E1; [|destruct ((i <? 0)%Z && _) eqn:E2];
    intros H; inversion H; subst; clear H.
  - apply andb_prop in E1 as [H1 H2].
    apply Z.leb_le in H1. apply Z.ltb_lt in H2. lia.
  - apply andb_prop in E2 as [H1 H2].
    apply Z.ltb_lt in H1. apply Z.leb_le in H2. lia.
Qed.

Lemma index_of_nat {A} (xs : list A) k :
  k < List.length xs -> index_of xs (Z.of_nat k) = Some k.
Proof.
  intros H. unfold index_of.
  replace ((0 <=? Z.of_nat k)%Z && _) with true.
  - now rewrite Nat2Z.id.
  - symmetry. apply andb_true_intro. split; [apply Z.leb_le|apply Z.ltb_lt]; lia.
Qed.

Lemma getitem_Return {A} (xs : list A) i x :
  getitem xs i = Return x ->
  exists k, index_of xs i = Some k /\ nth_error xs k = Some x.
Proof.
  unfold getitem. destruct (index_of xs i) as [k|]; [|discriminate].
  destruct (nth_error xs k) eqn:E; [|discriminate].
  intros [= <-]. eauto.
Qed.

Lemma getitem_nat {A} (xs : list A) k x :
  nth_error xs k = Some x -> getitem xs (Z.of_nat k) = Return x.
Proof.
  intros H. unfold getitem.
  rewrite index_of_nat by (apply nth_error_Some; congruence).
  now rewrite H.
Qed.

Lemma length_update {A} (xs : list A) k x :
  List.length (update xs k x) = List.length xs.
Proof.
  revert k; induction xs as [|y xs IH]; intros [|k]; cbn; auto.
Qed.

Lemma nth_error_update_other {A} (xs : list A) k x j :
  j <> k -> nth_error (update xs k x) j = nth_error xs j.
Proof.
  revert k j; induction xs as [|y xs IH]; intros [|k] [|j] H; cbn; auto.
  now elim H.
Qed.

Lemma nth_error_update_same {A} (xs : list A) k x :
  k < List.length xs -> nth_error (update xs k x) k = Some x.
Proof.
  revert k; induction xs as [|y xs IH]; intros [|k] H; cbn in *; try lia; auto.
  apply IH. lia.
Qed.

Lemma to_uint_not_Nil n : Nat.to_uint n <> Decimal.Nil.
Proof.
  intros E. pose proof (DecimalNat.Unsigned.of_to n) as H. rewrite E in H.
  cbn in H. subst n. discriminate.
Qed.

Lemma str_nat_inj n m : str_nat n = str_nat m -> n = m.
Proof.
  unfold str_nat. intros E.
  apply (f_equal NilZero.uint_of_string) in E.
  rewrite !NilZero.usu in E by apply to_uint_not_Nil.
  injection E as E. now apply DecimalNat.Unsigned.to_uint_inj.
Qed.

End PyFacts.

Module StructurerFacts.

Import Py PyFacts KubeStructurer.

Lemma startswith_expand_tabs p :
  plain p = true ->
  forall s, startswith p (expand_tabs s) = startswith p s.
Proof.
  unfold startswith.
  induction p as [|a p IH]; intros Hp s.
  - destruct (expand_tabs s); destruct s; reflexivity.
  - cbn [plain] in Hp. apply andb_prop in Hp as [Ha Hp].
    apply andb_prop in Ha as [Ht Hs].
    apply negb_true_iff in Ht, Hs.
    destruct s as [|b s]; [reflexivity|].
    rewrite expand_tabs_cons.
    destruct (Ascii.eqb_spec b TAB) as [->|Hb]; cbn [prefix].
    + destruct (ascii_dec a " ") as [->|_]; [discriminate|].
      destruct (ascii_dec a TAB) as [->|_]; [discriminate|reflexivity].
    + destruct (ascii_dec a b); [now apply IH|reflexivity].
Qed.

Lemma skip_blanks_expand_tabs s :
  skip_blanks (expand_tabs s) = expand_tabs (skip_blanks s).
Proof.
  induction s as [|c s IH]; [reflexivity|].
  rewrite expand_tabs_cons.
  destruct (Ascii.eqb_spec c TAB) as [->|Hne].
  - exact IH.
  - cbn [skip_blanks]. destruct (Ascii.eqb_spec c TAB); [contradiction|].
    rewrite orb_false_r. destruct (c =? " ")%char; [exact IH|].
    rewrite expand_tabs_cons. now destruct (Ascii.eqb_spec c TAB).
Qed.

Lemma skip_blanks_head s c r :
  skip_blanks s = String c r -> (c =? TAB)%char = false.
Proof.
  induction s as [|b s IH]; [discriminate|].
  cbn [skip_blanks]. destruct (b =? TAB)%char eqn:Hb.
  - rewrite orb_true_r. exact IH.
  - rewrite orb_false_r. destruct (b =? " ")%char; [exact IH|].
    intros [= <- _]. exact Hb.
Qed.

Lemma anchor_expand_tabs s :
  _is_anchor_or_alias (expand_tabs s) = _is_anchor_or_alias s.
Proof.
  unfold _is_anchor_or_alias.
  rewrite strip_expand_tabs, skip_blanks_expand_tabs.
  destruct (skip_blanks (strip s)) as [|c r] eqn:E; [reflexivity|].
  apply skip_blanks_head in E.
  rewrite expand_tabs_cons, E.
  destruct r as [|d r]; [reflexivity|].
  rewrite expand_tabs_cons.
  destruct (Ascii.eqb_spec d TAB) as [->|_]; [|reflexivity].
  now rewrite !andb_false_r.
Qed.

Lemma protected_expand_tabs s :
  _is_protected_structure (expand_tabs s) = _is_protected_structure s.
Proof.
  unfold _is_protected_structure.
  rewrite strip_expand_tabs, anchor_expand_tabs.
  now rewrite !startswith_expand_tabs by reflexivity.
Qed.

End StructurerFacts.

Module FixFacts.

Import Py PyFacts KubeStructurer StructurerFacts.

(** C2.  The indentation fix returns its input as it is, or the lines of
    its input joined again with every protected line in its place,
    unchanged: no line that satisfies the protected-structure predicate is
    rewritten. *)
Theorem protected_lines_never_rewritten yaml_str error_info out :
  auto_fix_indentation yaml_str error_info = Return out ->
  out = yaml_str
  \/ exists lines',
       out = join nl lines'
       /\ List.length lines' = List.length (splitlines yaml_str)
       /\ forall i l,
            nth_error (splitlines yaml_str) i = Some l ->
            _is_protected_structure l = true ->
            nth_error lines' i = Some l.
Proof.
  unfold auto_fix_indentation.
  destruct (_ =? -1)%Z; [intros [= <-]; now left|].
  destruct (_ >=? _)%Z; [intros [= <-]; now left|].
  destruct (getitem _ _) as [target|] eqn:Hget; [|discriminate]. cbn [bind].
  change (replace tab "  " target) with (expand_tabs target).
  rewrite protected_expand_tabs.
  destruct (_is_protected_structure target) eqn:Hprot; [intros [= <-]; now left|].
  destruct (_find_parent_indent _ _) as [parent|]; [|discriminate]. cbn [bind].
  destruct (_ || _); [|intros [= <-]; now left].
  apply getitem_Return in Hget as (k & Hk & Hnth).
  unfold setitem. rewrite Hk. cbn [bind]. intros [= <-].
  right. eexists. split; [reflexivity|]. split; [apply length_update|].
  intros i l Hi Hl. rewrite nth_error_update_other; [exact Hi|].
  intros ->. congruence.
Qed.

Lemma find_parent_indent_total lines n :
  n <= List.length lines ->
  exists parent_indent, _find_parent_indent_below lines n = Return parent_indent.
Proof.
  induction n as [|i IH]; intros Hn; [now exists 0|].
  cbn [_find_parent_indent_below].
  destruct (nth_error lines i) as [line|] eqn:Hi.
  2:{ apply nth_error_None in Hi. lia. }
  rewrite (getitem_nat _ _ _ Hi). cbn [bind].
  destruct (_ || _); [apply IH; lia|].
  destruct (_ && _); [eauto|apply IH; lia].
Qed.

(** C4, as the code has it.  For a failure located at line [k] whose line
    is not protected, the target indent is the parent indent plus 2, for a
    sequence item as for a mapping entry; the line is rewritten exactly
    when its indent (tabs expanded) differs from the target or is odd, the
    test for a remaining tab never holding; the rewritten line is the
    target indent followed by the line's trimmed content in which every
    tab has become two spaces, so the trimmed content is kept exactly when
    the line has no tab. *)
Theorem fix_application yaml_str error_info k line :
  _extract_line error_info = Z.of_nat k ->
  nth_error (splitlines yaml_str) k = Some line ->
  _is_protected_structure line = false ->
  exists parent_indent,
    _find_parent_indent (splitlines yaml_str) (Z.of_nat k) = Return parent_indent
    /\ let expanded := replace tab "  " line in
       let current_indent := String.length expanded - String.length (lstrip expanded) in
       let target_indent := parent_indent + 2 in
       let fixed_line := rstrip (repeat " " target_indent ++ lstrip expanded) in
       auto_fix_indentation yaml_str error_info =
         Return (if negb (current_indent =? target_indent)
                    || contains tab expanded
                    || negb (current_indent mod 2 =? 0)
                 then join nl (update (splitlines yaml_str) k fixed_line)
                 else yaml_str)
       /\ contains tab expanded = false
       /\ strip fixed_line = replace tab "  " (strip line)
       /\ (strip line <> "" ->
           fixed_line = repeat " " target_indent ++ replace tab "  " (strip line))
       /\ (contains tab line = false -> strip fixed_line = strip line).
Proof.
  intros Herr Hline Hprot.
  assert (Hk : k < List.length (splitlines yaml_str))
    by (apply nth_error_Some; congruence).
  destruct (find_parent_indent_total (splitlines yaml_str) k) as [parent Hpar]; [lia|].
  exists parent. unfold _find_parent_indent. rewrite Nat2Z.id.
  split; [exact Hpar|].
  change (replace tab "  ") with expand_tabs. change tab with (String TAB "").
  cbv zeta. repeat split.
  - unfold auto_fix_indentation, _find_parent_indent. rewrite Herr.
    replace (Z.of_nat k =? -1)%Z with false by (symmetry; apply Z.eqb_neq; lia).
    replace (Z.of_nat k >=? _)%Z with false
      by (symmetry; rewrite Z.geb_leb; apply Z.leb_gt; lia).
    rewrite (getitem_nat _ _ _ Hline). cbn [bind].
    change (replace tab "  " line) with (expand_tabs line).
    rewrite protected_expand_tabs, Hprot, Nat2Z.id, Hpar. cbn [bind].
    replace (if startswith "-" (strip (expand_tabs line))
             then parent + 2 else parent + 2) with (parent + 2)
      by now destruct (startswith _ _).
    change tab with (String TAB "").
    destruct (_ || _); [|reflexivity].
    unfold setitem. now rewrite index_of_nat by exact Hk.
  - apply expand_tabs_no_tab.
  - rewrite strip_reindented. apply strip_expand_tabs.
  - intros Hne. rewrite <- strip_expand_tabs. apply reindented_nonempty.
    rewrite strip_expand_tabs. intros E. now apply expand_tabs_empty in E.
  - intros Hnt. rewrite strip_reindented. now rewrite (expand_tabs_id _ Hnt).
Qed.

End FixFacts.

Module LoopFacts.

Import Py PyFacts KubeStructurer.

Lemma STRUCTURE_FIXED_inj n m : STRUCTURE_FIXED n = STRUCTURE_FIXED m -> n = m.
Proof.
  unfold STRUCTURE_FIXED. cbn [append]. intros E.
  injection E as E. now apply str_nat_inj.
Qed.

Lemma STRUCTURE_FIXED_other n :
  STRUCTURE_FIXED n <> STRUCTURE_OK
  /\ STRUCTURE_FIXED n <> STRUCTURE_FAIL
  /\ STRUCTURE_FIXED n <> STRUCTURE_PROTECTED_SKIP.
Proof. repeat split; unfold STRUCTURE_FIXED; cbn [append]; discriminate. Qed.

Section WithEngine.

Variable yaml : string -> Outcome.

Local Abbreviation validate := (validate_and_roundtrip yaml).
Local Abbreviation fix_loop := (fix_loop yaml).
Local Abbreviation fix_loop_log := (fix_loop_log yaml).

Ltac loop_step :=
  cbn [KubeStructurer.fix_loop KubeStructurer.fix_loop_log bind nth_error List.length];
  try match goal with
  | |- context [bind (auto_fix_indentation ?c ?r) _] =>
      destruct (auto_fix_indentation c r) as [fixed_yaml|] eqn:Hfix; cbn [bind]
  | |- context [match auto_fix_indentation ?c ?r with _ => _ end] =>
      destruct (auto_fix_indentation c r) as [fixed_yaml|] eqn:Hfix
  end;
  try match goal with
  | |- context [bind (getitem ?l ?i) _] =>
      destruct (getitem l i) as [checked|] eqn:Hget; cbn [bind]
  | |- context [match getitem ?l ?i with _ => _ end] =>
      destruct (getitem l i) as [checked|] eqn:Hget
  end;
  try match goal with
  | |- context [if _is_protected_structure ?l then _ else _] =>
      destruct (_is_protected_structure l) eqn:Hprot
  end;
  try match goal with
  | |- context [bind (validate_and_roundtrip yaml ?t) _] =>
      destruct (validate_and_roundtrip yaml t) as [[[|] result2]|] eqn:Hval; cbn [bind]
  | |- context [match validate_and_roundtrip yaml ?t with _ => _ end] =>
      destruct (validate_and_roundtrip yaml t) as [[[|] result2]|] eqn:Hval
  end.

Lemma fix_loop_log_length attempts current_yaml result :
  List.length (fix_loop_log attempts current_yaml result) <= List.length attempts.
Proof.
  revert current_yaml result.
  induction attempts as [|attempt attempts IH]; intros; [apply Nat.le_refl|].
  loop_step; cbn [List.length]; try lia.
  specialize (IH fixed_yaml result2). lia.
Qed.

Lemma fix_loop_log_numbers attempts current_yaml result i a :
  nth_error (fix_loop_log attempts current_yaml result) i = Some a ->
  exists attempt, nth_error attempts i = Some attempt
                  /\ attempt_number a = attempt + 1.
Proof.
  revert current_yaml result i.
  induction attempts as [|attempt attempts IH]; intros current_yaml result i.
  - destruct i; discriminate.
  - destruct i as [|i].
    + cbn. intros [= <-]. eauto.
    + loop_step; try (destruct i; discriminate). apply IH.
Qed.

Lemma fix_loop_log_head attempts current_yaml result a :
  nth_error (fix_loop_log attempts current_yaml result) 0 = Some a ->
  attempt_input a = current_yaml /\ attempt_failure a = result.
Proof.
  destruct attempts; [discriminate|]. cbn. now intros [= <-].
Qed.

Lemma fix_loop_log_chain attempts current_yaml result i a b :
  nth_error (fix_loop_log attempts current_yaml result) i = Some a ->
  nth_error (fix_loop_log attempts current_yaml result) (S i) = Some b ->
  auto_fix_indentation (attempt_input a) (attempt_failure a)
    = Return (attempt_input b)
  /\ validate (attempt_input b) = Return (false, attempt_failure b).
Proof.
  revert current_yaml result i.
  induction attempts as [|attempt attempts IH]; intros current_yaml result i.
  - destruct i; discriminate.
  - destruct i as [|i].
    + cbn [KubeStructurer.fix_loop_log nth_error]. intros [= <-]. cbn [attempt_input attempt_failure].
      loop_step; try discriminate.
      intros Hb. apply fix_loop_log_head in Hb as [-> ->]. auto.
    + loop_step; try (destruct i; discriminate). apply IH.
Qed.

(** How the loop ends, against its log. *)
Lemma fix_loop_outcome attempts current_yaml result content status :
  fix_loop attempts current_yaml result = Return (content, status) ->
  let log := fix_loop_log attempts current_yaml result in
  (status = STRUCTURE_FAIL
   /\ List.length log = List.length attempts
   /\ match attempts with
      | [] => content = current_yaml
      | _ => exists a r,
          nth_error log (List.length log - 1) = Some a
          /\ auto_fix_indentation (attempt_input a) (attempt_failure a) = Return content
          /\ validate content = Return (false, r)
      end)
  \/ (status = STRUCTURE_PROTECTED_SKIP
      /\ exists a, nth_error log (List.length log - 1) = Some a
                   /\ content = attempt_input a)
  \/ (exists a fixed,
        nth_error log (List.length log - 1) = Some a
        /\ status = STRUCTURE_FIXED (attempt_number a)
        /\ auto_fix_indentation (attempt_input a) (attempt_failure a) = Return fixed
        /\ validate fixed = Return (true, content)).
Proof.
  revert current_yaml result.
  induction attempts as [|attempt attempts IH]; intros current_yaml result.
  - cbn. intros [= <- <-]. left. auto.
  - loop_step; try discriminate.
    + intros [= <- <-]. right. left. split; [reflexivity|]. eexists. split; reflexivity.
    + intros [= <- <-]. right. right. do 2 eexists. cbn. repeat split; eauto.
    + intros H. apply IH in H. cbv zeta in H.
      remember (fix_loop_log attempts fixed_yaml result2) as log eqn:Elog.
      destruct H as [(-> & Hlen & Hlast) | [(-> & a & Ha & ->) | (a & fixed & Ha & -> & Hf & Hv)]].
      * left. split; [reflexivity|]. split; [lia|].
        destruct attempts as [|attempt' attempts].
        -- subst content. cbn in Elog. subst log. cbn.
           do 2 eexists. repeat split; cbn; eauto.
        -- destruct Hlast as (a & r & Ha & Hf & Hv). exists a, r.
           destruct log as [|x log]; [cbn in Hlen; discriminate|].
           cbn [List.length Nat.sub] in *. rewrite Nat.sub_0_r in *.
           repeat split; auto.
      * right. left. split; [reflexivity|].
        destruct log as [|x log]; [cbn in Ha; discriminate|].
        exists a. split; [|reflexivity].
        cbn [List.length Nat.sub] in *. rewrite Nat.sub_0_r in *.
        exact Ha.
      * right. right.
        destruct log as [|x log]; [cbn in Ha; discriminate|].
        exists a, fixed. repeat split; auto.
        cbn [List.length Nat.sub] in *. rewrite Nat.sub_0_r in *.
        exact Ha.
Qed.

Lemma range3_nth i attempt : nth_error [0; 1; 2] i = Some attempt -> attempt = i.
Proof.
  destruct i as [|[|[|[|i]]]]; cbn; intros [= <-]; reflexivity.
Qed.

(** What the log says of a document. *)
Lemma repair_log_shape yaml_str :
  let log := repair_log yaml yaml_str in
  List.length log <= 3
  /\ (forall i a, nth_error log i = Some a -> attempt_number a = i + 1)
  /\ (forall a, nth_error log 0 = Some a ->
        attempt_input a = yaml_str
        /\ validate yaml_str = Return (false, attempt_failure a))
  /\ (forall i a b,
        nth_error log i = Some a -> nth_error log (i + 1) = Some b ->
        auto_fix_indentation (attempt_input a) (attempt_failure a)
          = Return (attempt_input b)
        /\ validate (attempt_input b) = Return (false, attempt_failure b))
  /\ (forall content n,
        _process_single_doc yaml yaml_str = Return (content, STRUCTURE_FIXED n) ->
        1 <= n <= 3 /\ List.length log = n
        /\ exists a fixed,
             nth_error log (n - 1) = Some a
             /\ auto_fix_indentation (attempt_input a) (attempt_failure a)
                  = Return fixed
             /\ validate fixed = Return (true, content))
  /\ (forall content,
        _process_single_doc yaml yaml_str = Return (content, STRUCTURE_FAIL) ->
        List.length log = 3
        /\ exists a r,
             nth_error log 2 = Some a
             /\ auto_fix_indentation (attempt_input a) (attempt_failure a)
                  = Return content
             /\ validate content = Return (false, r)).
Proof.
  unfold repair_log, _process_single_doc.
  destruct (validate yaml_str) as [[[|] result]|] eqn:Hv; cbn [bind].
  - cbn [nth_error List.length]. split; [lia|].
    split; [intros [|?] ? H; discriminate H|].
    split; [intros ? H; discriminate H|].
    split; [intros [|?] ? ? H; discriminate H|].
    split; intros; discriminate.
  - pose proof (fix_loop_log_length [0; 1; 2] yaml_str result) as Hlen.
    cbn [List.length] in Hlen.
    assert (Hnum : forall i a,
               nth_error (fix_loop_log [0; 1; 2] yaml_str result) i = Some a ->
               attempt_number a = i + 1).
    { intros i a Ha. apply fix_loop_log_numbers in Ha as (k & Hk & ->).
      now apply range3_nth in Hk as ->. }
    cbv zeta. split; [exact Hlen|]. split; [exact Hnum|].
    split; [|split; [|split]].
    + intros a Ha. apply fix_loop_log_head in Ha as [-> ->]. auto.
    + intros i a b Ha Hb. rewrite Nat.add_1_r in Hb.
      eapply fix_loop_log_chain; eauto.
    + intros content n H. apply fix_loop_outcome in H. cbv zeta in H.
      destruct H as [(E & _) | [(E & _) | (a & fixed & Ha & E & Hf & Hval)]];
        try (now apply STRUCTURE_FIXED_other in E).
      apply STRUCTURE_FIXED_inj in E. subst n.
      pose proof (Hnum _ _ Ha) as Hn.
      assert (Hpos : List.length (fix_loop_log [0; 1; 2] yaml_str result) <> 0).
      { intros E0. rewrite E0 in Ha.
        destruct (fix_loop_log [0; 1; 2] yaml_str result); discriminate. }
      assert (Hl : List.length (fix_loop_log [0; 1; 2] yaml_str result)
                   = attempt_number a) by lia.
      rewrite <- Hl. repeat split; try lia. exists a, fixed. auto.
    + intros content H. apply fix_loop_outcome in H. cbv zeta in H.
      destruct H as [(_ & Hl & a & r & Ha & Hf & Hval) | [(E & _) | (a & fixed & _ & E & _)]];
        [|discriminate E|symmetry in E; now apply STRUCTURE_FIXED_other in E].
      cbn [List.length] in Hl. rewrite Hl in Ha. split; [exact Hl|].
      exists a, r. auto.
  - cbn [nth_error List.length]. split; [lia|].
    split; [intros [|?] ? H; discriminate H|].
    split; [intros ? H; discriminate H|].
    split; [intros [|?] ? ? H; discriminate H|].
    split; intros; discriminate.
Qed.

(** The outcome of one attempt taken alone: what the loop returns when this
    attempt is the one it ends with. *)
Local Abbreviation outcome_of a :=
  (fixed_yaml <- auto_fix_indentation (attempt_input a) (attempt_failure a) ;;
   line <- getitem (splitlines fixed_yaml) (_extract_line (attempt_failure a)) ;;
   if _is_protected_structure line
   then Return (attempt_input a, STRUCTURE_PROTECTED_SKIP)
   else
     v <- validate fixed_yaml ;;
     if fst v then Return (snd v, STRUCTURE_FIXED (attempt_number a))
     else Return (fixed_yaml, STRUCTURE_FAIL)).

(** A fix that the loop goes on from: it returned a text, and the line the
    check reads in it is there and not protected. *)
Local Abbreviation accepted t r t' :=
  (auto_fix_indentation t r = Return t'%string
   /\ exists line,
        getitem (splitlines t') (_extract_line r) = Return line
        /\ _is_protected_structure line = false).

Lemma fix_loop_last attempt attempts current_yaml result :
  let log := fix_loop_log (attempt :: attempts) current_yaml result in
  exists a,
    nth_error log (List.length log - 1) = Some a
    /\ fix_loop (attempt :: attempts) current_yaml result = outcome_of a
    /\ (List.length log < List.length (attempt :: attempts) ->
        forall t r, accepted (attempt_input a) (attempt_failure a) t ->
                    validate t <> Return (false, r)).
Proof.
  revert attempt current_yaml result.
  induction attempts as [|next attempts IH]; intros attempt current_yaml result.
  - cbv zeta. eexists. split; [|split].
    + loop_step; reflexivity.
    + cbn [KubeStructurer.fix_loop attempt_input attempt_failure attempt_number].
      destruct (auto_fix_indentation current_yaml result) as [fixed|];
        [|reflexivity]. cbn [bind].
      destruct (getitem _ _) as [line|]; [|reflexivity]. cbn [bind].
      destruct (_is_protected_structure line); [reflexivity|].
      now destruct (validate fixed) as [[[|] r2]|].
    + intros Hlt. exfalso. revert Hlt. loop_step; cbn [List.length]; lia.
  - cbv zeta. remember (next :: attempts) as rest eqn:Erest.
    cbn [KubeStructurer.fix_loop KubeStructurer.fix_loop_log].
    set (a0 := {| attempt_number := attempt + 1;
                  attempt_input := current_yaml;
                  attempt_failure := result |}).
    destruct (auto_fix_indentation current_yaml result) as [fixed|e] eqn:Hfix.
    2:{ exists a0. cbn [List.length Nat.sub nth_error bind attempt_input attempt_failure a0].
        rewrite Hfix. repeat split. intros _ t r [Ht _]. discriminate Ht. }
    cbn [bind].
    destruct (getitem (splitlines fixed) (_extract_line result)) as [line|e] eqn:Hget.
    2:{ exists a0. cbn [List.length Nat.sub nth_error bind attempt_input attempt_failure a0].
        rewrite Hfix. cbn [bind]. rewrite Hget. repeat split.
        intros _ t r [Ht (l & Hl & _)].
        injection Ht as <-. rewrite Hget in Hl. discriminate Hl. }
    cbn [bind].
    destruct (_is_protected_structure line) eqn:Hprot.
    { exists a0. cbn [List.length Nat.sub nth_error bind attempt_input attempt_failure a0].
      rewrite Hfix. cbn [bind]. rewrite Hget. cbn [bind]. rewrite Hprot.
      repeat split. intros _ t r [Ht (l & Hl & Hp)].
      injection Ht as <-. rewrite Hget in Hl. injection Hl as <-. congruence. }
    destruct (validate fixed) as [[[|] r2]|e] eqn:Hval; cbn [bind].
    + exists a0. cbn [List.length Nat.sub nth_error bind attempt_input attempt_failure attempt_number a0].
      rewrite Hfix. cbn [bind]. rewrite Hget. cbn [bind]. rewrite Hprot, Hval.
      repeat split. intros _ t r [Ht _]. injection Ht as <-. rewrite Hval. discriminate.
    + subst rest.
      destruct (IH next fixed r2) as (a & Ha & Hout & Hlast). cbv zeta in *.
      exists a.
      remember (fix_loop_log (next :: attempts) fixed r2) as log eqn:Elog.
      assert (Hne : log <> []) by (subst log; discriminate).
      destruct log as [|x log]; [now elim Hne|].
      cbn [List.length Nat.sub nth_error] in *. rewrite Nat.sub_0_r in *.
      split; [exact Ha|]. split; [exact Hout|].
      intros Hlt. apply Hlast. lia.
    + exists a0. cbn [List.length Nat.sub nth_error bind attempt_input attempt_failure a0].
      rewrite Hfix. cbn [bind]. rewrite Hget. cbn [bind]. rewrite Hprot, Hval.
      repeat split. intros _ t r [Ht _]. injection Ht as <-. rewrite Hval. discriminate.
Qed.

Lemma fix_loop_accepted attempt attempts t r t' r' :
  accepted t r t' -> validate t' = Return (false, r') ->
  fix_loop (attempt :: attempts) t r = fix_loop attempts t' r'
  /\ fix_loop_log (attempt :: attempts) t r
     = {| attempt_number := attempt + 1; attempt_input := t;
          attempt_failure := r |} :: fix_loop_log attempts t' r'.
Proof.
  intros (Hfix & line & Hline & Hprot) Hval.
  cbn [KubeStructurer.fix_loop KubeStructurer.fix_loop_log].
  rewrite Hfix. cbn [bind]. rewrite Hline. cbn [bind]. now rewrite Hprot, Hval.
Qed.

Lemma fix_loop_fixed attempt attempts t r t' canonical :
  accepted t r t' -> validate t' = Return (true, canonical) ->
  fix_loop (attempt :: attempts) t r
  = Return (canonical, STRUCTURE_FIXED (attempt + 1)).
Proof.
  intros (Hfix & line & Hline & Hprot) Hval. cbn [KubeStructurer.fix_loop].
  rewrite Hfix. cbn [bind]. rewrite Hline. cbn [bind]. now rewrite Hprot, Hval.
Qed.

(** C3.  The repair log of a document has at most three attempts,
    numbered 1, 2, 3; the first one starts from the document and its
    validation failure, and each later one from the text the previous fix
    returned and the failure of validating that text.  Status
    STRUCTURE_FIXED_n means the log has exactly n attempts and the text of
    the n-th fix validated, its canonical form being the content; status
    STRUCTURE_FAIL means three attempts and the content is what the third
    fix returned, which did not validate.  The other way round: a document
    that validates returns its canonical form as STRUCTURE_OK without an
    attempt; when it does not, the loop returns the outcome of the last
    attempt of the log, which is the third whenever its fix was accepted
    and failed again; a fix that validates at attempt n gives
    STRUCTURE_FIXED_n, and three accepted fixes that all fail give
    STRUCTURE_FAIL with the text of the third. *)
Theorem repair_loop_bounded_and_chained yaml_str :
  let log := repair_log yaml yaml_str in
  List.length log <= 3
  /\ (forall i a, nth_error log i = Some a -> attempt_number a = i + 1)
  /\ (forall a, nth_error log 0 = Some a ->
        attempt_input a = yaml_str
        /\ validate yaml_str = Return (false, attempt_failure a))
  /\ (forall i a b,
        nth_error log i = Some a -> nth_error log (i + 1) = Some b ->
        auto_fix_indentation (attempt_input a) (attempt_failure a)
          = Return (attempt_input b)
        /\ validate (attempt_input b) = Return (false, attempt_failure b))
  /\ (forall content n,
        _process_single_doc yaml yaml_str = Return (content, STRUCTURE_FIXED n) ->
        1 <= n <= 3 /\ List.length log = n
        /\ exists a fixed,
             nth_error log (n - 1) = Some a
             /\ auto_fix_indentation (attempt_input a) (attempt_failure a)
                  = Return fixed
             /\ validate fixed = Return (true, content))
  /\ (forall content,
        _process_single_doc yaml yaml_str = Return (content, STRUCTURE_FAIL) ->
        List.length log = 3
        /\ exists a r,
             nth_error log 2 = Some a
             /\ auto_fix_indentation (attempt_input a) (attempt_failure a)
                  = Return content
             /\ validate content = Return (false, r))
  /\ (forall canonical,
        validate yaml_str = Return (true, canonical) ->
        _process_single_doc yaml yaml_str = Return (canonical, STRUCTURE_OK)
        /\ log = [])
  /\ (forall e,
        validate yaml_str = Raise e ->
        _process_single_doc yaml yaml_str = Raise e /\ log = [])
  /\ (forall result,
        validate yaml_str = Return (false, result) ->
        exists a,
          nth_error log (List.length log - 1) = Some a
          /\ _process_single_doc yaml yaml_str = outcome_of a
          /\ (List.length log < 3 ->
              forall t r, accepted (attempt_input a) (attempt_failure a) t ->
                          validate t <> Return (false, r)))
  /\ (forall r0 t1 canonical,
        validate yaml_str = Return (false, r0) ->
        accepted yaml_str r0 t1 -> validate t1 = Return (true, canonical) ->
        _process_single_doc yaml yaml_str
        = Return (canonical, STRUCTURE_FIXED 1))
  /\ (forall r0 t1 r1 t2 canonical,
        validate yaml_str = Return (false, r0) ->
        accepted yaml_str r0 t1 -> validate t1 = Return (false, r1) ->
        accepted t1 r1 t2 -> validate t2 = Return (true, canonical) ->
        _process_single_doc yaml yaml_str
        = Return (canonical, STRUCTURE_FIXED 2))
  /\ (forall r0 t1 r1 t2 r2 t3 canonical,
        validate yaml_str = Return (false, r0) ->
        accepted yaml_str r0 t1 -> validate t1 = Return (false, r1) ->
        accepted t1 r1 t2 -> validate t2 = Return (false, r2) ->
        accepted t2 r2 t3 -> validate t3 = Return (true, canonical) ->
        _process_single_doc yaml yaml_str
        = Return (canonical, STRUCTURE_FIXED 3))
  /\ (forall r0 t1 r1 t2 r2 t3 r3,
        validate yaml_str = Return (false, r0) ->
        accepted yaml_str r0 t1 -> validate t1 = Return (false, r1) ->
        accepted t1 r1 t2 -> validate t2 = Return (false, r2) ->
        accepted t2 r2 t3 -> validate t3 = Return (false, r3) ->
        _process_single_doc yaml yaml_str = Return (t3, STRUCTURE_FAIL)
        /\ map attempt_input log = [yaml_str; t1; t2]
        /\ map attempt_failure log = [r0; r1; r2]).
Proof.
  destruct (repair_log_shape yaml_str) as (H1 & H2 & H3 & H4 & H5 & H6).
  cbv zeta in *.
  split; [exact H1|]. split; [exact H2|]. split; [exact H3|].
  split; [exact H4|]. split; [exact H5|]. split; [exact H6|].
  unfold repair_log, _process_single_doc.
  split; [|split; [|split; [|split; [|split; [|split]]]]].
  - intros canonical Hv. rewrite Hv. now split.
  - intros e Hv. rewrite Hv. now split.
  - intros result Hv. rewrite Hv. cbn [bind].
    destruct (fix_loop_last 0 [1; 2] yaml_str result) as (a & Ha & Hout & Hlast).
    exists a. cbv zeta in *. split; [exact Ha|]. split; [exact Hout|].
    exact Hlast.
  - intros r0 t1 canonical Hv Ha1 Hv1. rewrite Hv. cbn [bind].
    exact (fix_loop_fixed 0 _ _ _ _ _ Ha1 Hv1).
  - intros r0 t1 r1 t2 canonical Hv Ha1 Hv1 Ha2 Hv2. rewrite Hv. cbn [bind].
    destruct (fix_loop_accepted 0 [1; 2] _ _ _ _ Ha1 Hv1) as [-> _].
    exact (fix_loop_fixed 1 _ _ _ _ _ Ha2 Hv2).
  - intros r0 t1 r1 t2 r2 t3 canonical Hv Ha1 Hv1 Ha2 Hv2 Ha3 Hv3.
    rewrite Hv. cbn [bind].
    destruct (fix_loop_accepted 0 [1; 2] _ _ _ _ Ha1 Hv1) as [-> _].
    destruct (fix_loop_accepted 1 [2] _ _ _ _ Ha2 Hv2) as [-> _].
    exact (fix_loop_fixed 2 _ _ _ _ _ Ha3 Hv3).
  - intros r0 t1 r1 t2 r2 t3 r3 Hv Ha1 Hv1 Ha2 Hv2 Ha3 Hv3.
    rewrite Hv. cbn [bind].
    destruct (fix_loop_accepted 0 [1; 2] _ _ _ _ Ha1 Hv1) as [-> ->].
    destruct (fix_loop_accepted 1 [2] _ _ _ _ Ha2 Hv2) as [-> ->].
    destruct (fix_loop_accepted 2 [] _ _ _ _ Ha3 Hv3) as [-> ->].
    repeat split.
Qed.

Lemma validate_true t canonical :
  validate t = Return (true, canonical) ->
  exists output_buffer, yaml t = Dumped output_buffer
                        /\ canonical = rstrip output_buffer.
Proof.
  unfold validate_and_roundtrip.
  destruct (yaml t) as [out|[[line column]|] e|e]; try discriminate.
  intros [= <-]. eauto.
Qed.

(** The content of a single document that reaches STRUCTURE_OK or
    STRUCTURE_FIXED_n is what the engine dumped for a text it loaded. *)
Lemma single_doc_success_is_a_dump yaml_str content status :
  _process_single_doc yaml yaml_str = Return (content, status) ->
  status = STRUCTURE_OK \/ (exists n, status = STRUCTURE_FIXED n) ->
  exists t output_buffer,
    yaml t = Dumped output_buffer /\ content = rstrip output_buffer.
Proof.
  unfold _process_single_doc.
  destruct (validate yaml_str) as [[[|] result]|] eqn:Hv; cbn [bind];
    [| |discriminate].
  - intros [= <- _] _. apply validate_true in Hv as (out & Hy & ->). eauto.
  - intros H Hst. apply fix_loop_outcome in H. cbv zeta in H.
    destruct H as [(E & _) | [(E & _) | (a & fixed & _ & _ & _ & Hval)]].
    + subst status. destruct Hst as [E|[n E]]; [discriminate E|].
      symmetry in E. now apply STRUCTURE_FIXED_other in E.
    + subst status. destruct Hst as [E|[n E]]; [discriminate E|].
      symmetry in E. now apply STRUCTURE_FIXED_other in E.
    + apply validate_true in Hval as (out & Hy & ->). eauto.
Qed.

End WithEngine.
End LoopFacts.

Module ErrorTextFacts.

Import Py PyFacts KubeStructurer.

Lemma string_of_uint_digits d : all_digits (NilEmpty.string_of_uint d) = true.
Proof. induction d; cbn [NilEmpty.string_of_uint all_digits]; auto. Qed.

Lemma str_nat_digits n : all_digits (str_nat n) = true.
Proof.
  unfold str_nat, NilZero.string_of_uint.
  destruct (Nat.to_uint n); try reflexivity; apply (string_of_uint_digits (_ _)).
Qed.

Lemma str_nat_nonempty n : str_nat n <> "".
Proof.
  unfold str_nat, NilZero.string_of_uint.
  destruct (Nat.to_uint n); discriminate.
Qed.

Lemma isdigit_cases c :
  isdigit c = true ->
  isspace c = false /\ (c =? ":")%char = false /\ (c =? "_")%char = false
  /\ c <> "-"%char /\ c <> "+"%char.
Proof.
  destruct c as [[] [] [] [] [] [] [] []]; cbn; intros H; try discriminate H;
    repeat split; discriminate.
Qed.

Lemma all_digits_nonspace s : all_digits s = true -> rstrip s = s /\ lstrip s = s.
Proof.
  induction s as [|c s IH]; [auto|].
  cbn [all_digits]. intros H. apply andb_prop in H as [Hc Hs].
  apply isdigit_cases in Hc as (Hc & _).
  destruct (IH Hs) as [IHr _].
  rewrite rstrip_nonspace, IHr by exact Hc. cbn [lstrip]. now rewrite Hc.
Qed.

Lemma all_digits_strip s : all_digits s = true -> strip s = s.
Proof.
  intros H. unfold strip.
  destruct (all_digits_nonspace s H) as [Hr Hl]. now rewrite Hl, Hr.
Qed.

Lemma all_digits_strip_int s :
  all_digits s = true -> rstrip_int (lstrip_int s) = s.
Proof.
  intros H.
  assert (Hr : rstrip_int s = s).
  { induction s as [|c s IH]; [reflexivity|].
    cbn [all_digits] in H. apply andb_prop in H as [Hc Hs].
    cbn [rstrip_int]. rewrite (IH Hs).
    destruct c as [[] [] [] [] [] [] [] []]; try discriminate Hc;
      now destruct s. }
  destruct s as [|c s]; [reflexivity|].
  cbn [all_digits] in H. apply andb_prop in H as [Hc _].
  cbn [lstrip_int].
  replace (isspace_int c) with false; [exact Hr|].
  destruct c as [[] [] [] [] [] [] [] []]; try discriminate Hc; reflexivity.
Qed.

Lemma digits_of_uint d acc b :
  d <> Decimal.Nil \/ b = true ->
  digits (NilEmpty.string_of_uint d) (Z.of_nat acc) b
  = Some (Z.of_nat (Nat.of_uint_acc d acc)).
Proof.
  revert acc b.
  induction d as [|d IH|d IH|d IH|d IH|d IH|d IH|d IH|d IH|d IH|d IH];
    intros acc b H;
    cbn [NilEmpty.string_of_uint digits Nat.of_uint_acc].
  1: { destruct H as [H | ->]; [now elim H | reflexivity]. }
  all: match goal with
       | |- context [isdigit ?c] => change (isdigit c) with true; cbv iota
       end;
       match goal with
       | |- context [nat_of_ascii ?c - 48] =>
           let v := eval compute in (nat_of_ascii c - 48) in
           change (nat_of_ascii c - 48) with v
       end;
       match goal with
       | |- digits _ ?a true = Some (Z.of_nat (Nat.of_uint_acc _ ?n)) =>
           replace a with (Z.of_nat n) by (rewrite Nat.tail_mul_spec; lia)
       end;
       apply IH; now right.
Qed.

Lemma int_str_nat n : int (str_nat n) = Some (Z.of_nat n).
Proof.
  unfold int. rewrite (all_digits_strip_int _ (str_nat_digits n)).
  pose proof (str_nat_digits n) as Hd.
  assert (Hv : digits (str_nat n) 0 false = Some (Z.of_nat n)).
  { unfold str_nat, NilZero.string_of_uint.
    pose proof (to_uint_not_Nil n) as Hn.
    pose proof (DecimalNat.Unsigned.of_to n) as Hof. unfold Nat.of_uint in Hof.
    rewrite <- Hof at 2.
    destruct (Nat.to_uint n) eqn:E; [now elim Hn| ..];
      rewrite <- E in *; now apply (digits_of_uint _ 0 false); left. }
  destruct (str_nat n) as [|c s] eqn:E; [exact Hv|].
  cbn [all_digits] in Hd. apply andb_prop in Hd as [Hc _].
  apply isdigit_cases in Hc as (_ & _ & _ & Hm & Hp).
  destruct c as [[] [] [] [] [] [] [] []]; try exact Hv;
    [now elim Hp | now elim Hm].
Qed.

Lemma all_digits_no_colon s : all_digits s = true -> no_colon s = true.
Proof.
  induction s as [|c s IH]; [reflexivity|].
  cbn [all_digits no_colon]. intros H. apply andb_prop in H as [Hc Hs].
  apply isdigit_cases in Hc as (_ & Hc & _). now rewrite Hc, IH.
Qed.

Lemma split_colon p r :
  no_colon p = true -> split ":" (p ++ String ":" r) = p :: split ":" r.
Proof.
  induction p as [|c p IH]; [reflexivity|].
  cbn [no_colon append split]. intros H. apply andb_prop in H as [Hc Hp].
  apply negb_true_iff in Hc. now rewrite Hc, (IH Hp).
Qed.

Lemma startswith_app p s : startswith p (p ++ s) = true.
Proof.
  unfold startswith. induction p as [|c p IH]; [now destruct s|].
  cbn [append prefix]. now destruct (ascii_dec c c).
Qed.

(** A failure with a mark is located at the mark's line. *)
Lemma extract_line_localized line column e :
  _extract_line (failure_text (Some (line, column)) e) = Z.of_nat line.
Proof.
  unfold failure_text, _extract_line.
  rewrite startswith_app. cbn [negb].
  change ("STRUCTURE_ERROR:L" ++ ?x) with ("STRUCTURE_ERROR" ++ String ":" ("L" ++ x)).
  rewrite split_colon by reflexivity.
  replace ("L" ++ str_nat (line + 1) ++ ":C" ++ str_nat (column + 1) ++ ":" ++ e)
    with (("L" ++ str_nat (line + 1)) ++ String ":" ("C" ++ str_nat (column + 1) ++ ":" ++ e)).
  2:{ reflexivity. }
  rewrite split_colon
    by (cbn [append no_colon]; apply all_digits_no_colon, str_nat_digits).
  cbn [nth_error append tail]. rewrite int_str_nat. lia.
Qed.

(** A failure without a mark is unlocalized, unless its message happens to
    begin with [L]. *)
Lemma extract_line_unlocalized e :
  startswith "L" e = false -> _extract_line (failure_text None e) = (-1)%Z.
Proof.
  intros H. unfold failure_text, _extract_line.
  assert (E : startswith "STRUCTURE_ERROR:L" ("STRUCTURE_ERROR:" ++ e) = false).
  { destruct e as [|c e]; [reflexivity|].
    unfold startswith in *. cbn [append prefix] in *.
    repeat match goal with
           | |- context [ascii_dec ?a ?b] => destruct (ascii_dec a b); try congruence
           end. }
  now rewrite E.
Qed.

End ErrorTextFacts.

Module RepairFacts.

Import Py PyFacts KubeStructurer ErrorTextFacts.

Lemma getitem_last {A} (init : list A) (last : A) :
  getitem (init ++ [last])%list (-1) = Return last.
Proof.
  unfold getitem, index_of. rewrite length_app. cbn [List.length].
  replace ((0 <=? -1)%Z && _) with false by reflexivity.
  replace ((-1 <? 0)%Z && _) with true
    by (symmetry; apply andb_true_intro; split;
        [reflexivity | apply Z.leb_le; lia]).
  replace (Z.to_nat (Z.of_nat (List.length init + 1) + -1)) with (List.length init) by lia.
  rewrite nth_error_app2 by lia. now rewrite Nat.sub_diag.
Qed.

Lemma auto_fix_unlocalized yaml_str error_info :
  _extract_line error_info = (-1)%Z ->
  auto_fix_indentation yaml_str error_info = Return yaml_str.
Proof. intros H. unfold auto_fix_indentation. now rewrite H. Qed.

Section WithEngine.

Variable yaml : string -> Outcome.

Local Abbreviation validate := (validate_and_roundtrip yaml).

Lemma validate_YAMLError t mark e :
  yaml t = YAMLError mark e -> validate t = Return (false, failure_text mark e).
Proof.
  intros H. unfold validate_and_roundtrip. rewrite H.
  now destruct mark as [[line column]|].
Qed.

Lemma fix_loop_unlocalized attempts yaml_str result :
  validate yaml_str = Return (false, result) ->
  _extract_line result = (-1)%Z ->
  (forall a, In a (fix_loop_log yaml attempts yaml_str result) ->
             attempt_input a = yaml_str /\ attempt_failure a = result)
  /\ (forall content status,
        fix_loop yaml attempts yaml_str result = Return (content, status) ->
        content = yaml_str
        /\ (status = STRUCTURE_FAIL \/ status = STRUCTURE_PROTECTED_SKIP)).
Proof.
  intros Hv Hx.
  induction attempts as [|attempt attempts [IHlog IHout]].
  - split; [intros a []|]. cbn. intros content status [= <- <-]. auto.
  - cbn [KubeStructurer.fix_loop KubeStructurer.fix_loop_log].
    rewrite (auto_fix_unlocalized _ _ Hx). cbn [bind].
    destruct (getitem _ _) as [checked|]; cbn [bind].
    2:{ split; [|discriminate]. intros a [<-|[]]. auto. }
    destruct (_is_protected_structure checked).
    { split; [intros a [<-|[]]; auto|]. intros content status [= <- <-]. auto. }
    rewrite Hv. cbn [bind]. split; [|exact IHout].
    intros a [<-|Ha]; auto.
Qed.

(** C9.  When the failure of a document's validation has no location that
    [_extract_line] can read, the fix application returns any text it is
    given unchanged, every attempt of the loop starts from the document
    itself with that same failure, and the document comes back as it
    was. *)
Theorem unlocalized_failure_disables_fix yaml_str result :
  validate yaml_str = Return (false, result) ->
  _extract_line result = (-1)%Z ->
  (forall t, auto_fix_indentation t result = Return t)
  /\ (forall a, In a (repair_log yaml yaml_str) ->
        attempt_input a = yaml_str /\ attempt_failure a = result
        /\ auto_fix_indentation (attempt_input a) (attempt_failure a)
           = Return yaml_str)
  /\ (forall content status,
        _process_single_doc yaml yaml_str = Return (content, status) ->
        content = yaml_str
        /\ (status = STRUCTURE_FAIL \/ status = STRUCTURE_PROTECTED_SKIP)).
Proof.
  intros Hv Hx.
  destruct (fix_loop_unlocalized [0; 1; 2] _ _ Hv Hx) as [Hlog Hout].
  split; [intros t; now apply auto_fix_unlocalized|].
  unfold repair_log, _process_single_doc. rewrite Hv. cbn [bind].
  split; [|exact Hout].
  intros a Ha. destruct (Hlog a Ha) as [-> ->].
  repeat split. now apply auto_fix_unlocalized.
Qed.

(** C10.  A document whose validation fails without a mark (the message
    not beginning with [L]) and whose last line is protected comes back
    with status STRUCTURE_PROTECTED_SKIP: the check after the fix reads
    line [-1], the last line of the text. *)
Theorem unlocalized_failure_checks_last_line yaml_str e init last :
  yaml yaml_str = YAMLError None e ->
  startswith "L" e = false ->
  splitlines yaml_str = (init ++ [last])%list ->
  _is_protected_structure last = true ->
  _extract_line (failure_text None e) = (-1)%Z
  /\ _process_single_doc yaml yaml_str
     = Return (yaml_str, STRUCTURE_PROTECTED_SKIP).
Proof.
  intros Hy He Hlines Hprot.
  pose proof (extract_line_unlocalized e He) as Hx.
  split; [exact Hx|].
  unfold _process_single_doc.
  rewrite (validate_YAMLError _ _ _ Hy). cbn [bind KubeStructurer.fix_loop].
  rewrite (auto_fix_unlocalized _ _ Hx). cbn [bind].
  rewrite Hx, Hlines, getitem_last. cbn [bind]. now rewrite Hprot.
Qed.

End WithEngine.

End RepairFacts.


Module MultiDocFacts.

Import Py PyFacts KubeStructurer ErrorTextFacts RepairFacts HealingPipeline Scenarios.

(** C1, where the code departs from it.  On the stream [---] / [a: [] the
    engine stops at line 2; the fix indents that line and the engine stops
    there again, so the fragment ends as STRUCTURE_FAIL; the composite
    result still carries MULTI_DOC_HANDLED, a success status, with a
    content the engine does not load. *)
Theorem multi_doc_success_with_unparseable_content
  (yaml : string -> Outcome) column1 e1 column2 e2 :
  yaml flow_doc = YAMLError (Some (1, column1)) e1 ->
  yaml flow_doc_fixed = YAMLError (Some (1, column2)) e2 ->
  process_yaml yaml (flow_doc ++ nl) = Return (flow_doc_fixed, MULTI_DOC_HANDLED)
  /\ mem MULTI_DOC_HANDLED success_statuses = true
  /\ parses yaml flow_doc_fixed = false.
Proof.
  intros H1 H2.
  assert (Hfix1 : auto_fix_indentation flow_doc (failure_text (Some (1, column1)) e1)
                  = Return flow_doc_fixed).
  { unfold auto_fix_indentation. rewrite extract_line_localized. reflexivity. }
  assert (Hfix2 : auto_fix_indentation flow_doc_fixed (failure_text (Some (1, column2)) e2)
                  = Return flow_doc_fixed).
  { unfold auto_fix_indentation. rewrite extract_line_localized. reflexivity. }
  assert (Hsingle : _process_single_doc yaml flow_doc
                    = Return (flow_doc_fixed, STRUCTURE_FAIL)).
  { unfold _process_single_doc.
    rewrite (validate_YAMLError _ _ _ _ H1).
    cbn [bind KubeStructurer.fix_loop].
    rewrite Hfix1. cbn [bind]. rewrite !extract_line_localized.
    change (getitem (splitlines flow_doc_fixed) (Z.of_nat 1)) with (Return (A:=string) "  a: [").
    cbn [bind]. change (_is_protected_structure "  a: [") with false. cbv iota.
    rewrite (validate_YAMLError _ _ _ _ H2). cbn [bind].
    rewrite Hfix2. cbn [bind]. rewrite !extract_line_localized.
    change (getitem (splitlines flow_doc_fixed) (Z.of_nat 1)) with (Return (A:=string) "  a: [").
    cbn [bind]. change (_is_protected_structure "  a: [") with false. cbv iota.
    rewrite (validate_YAMLError _ _ _ _ H2). cbn [bind].
    rewrite Hfix2. cbn [bind]. rewrite !extract_line_localized.
    change (getitem (splitlines flow_doc_fixed) (Z.of_nat 1)) with (Return (A:=string) "  a: [").
    cbn [bind]. change (_is_protected_structure "  a: [") with false. cbv iota.
    rewrite (validate_YAMLError _ _ _ _ H2). reflexivity. }
  split; [|split; [reflexivity|]].
  - unfold process_yaml.
    change (_normalize_line_endings (flow_doc ++ nl)) with flow_doc.
    change (contains "---" flow_doc && startswith "---" (strip flow_doc)) with true.
    cbv iota. unfold _process_multi_doc.
    change (split_documents (strip flow_doc)) with [flow_doc].
    cbn [process_documents].
    change (negb (strip flow_doc =? "")%string) with true. cbv iota.
    rewrite Hsingle. reflexivity.
  - unfold parses. now rewrite H2.
Qed.

End MultiDocFacts.

Module PipelineFacts.

Import Py PyFacts KubeStructurer HealingPipeline.

Lemma fix_loop_status yaml attempts current_yaml result content status :
  fix_loop yaml attempts current_yaml result = Return (content, status) ->
  status = STRUCTURE_FAIL \/ status = STRUCTURE_PROTECTED_SKIP
  \/ exists attempt, In attempt attempts /\ status = STRUCTURE_FIXED (attempt + 1).
Proof.
  revert current_yaml result.
  induction attempts as [|attempt attempts IH]; intros current_yaml result.
  - cbn. intros [= _ <-]. auto.
  - cbn [fix_loop].
    destruct (auto_fix_indentation _ _) as [fixed_yaml|]; [|discriminate].
    cbn [bind]. destruct (getitem _ _) as [checked|]; [|discriminate].
    cbn [bind]. destruct (_is_protected_structure checked).
    { intros [= _ <-]. auto. }
    destruct (validate_and_roundtrip yaml fixed_yaml) as [[[|] result2]|];
      [| |discriminate]; cbn [bind].
    + intros [= _ <-]. right. right. exists attempt. split; [now left|reflexivity].
    + intros H. apply IH in H as [H|[H|(k & Hk & H)]]; auto.
      right. right. exists k. split; [now right|exact H].
Qed.

Lemma process_single_doc_status yaml yaml_str content status :
  _process_single_doc yaml yaml_str = Return (content, status) ->
  In status structurer_statuses.
Proof.
  unfold _process_single_doc.
  destruct (validate_and_roundtrip yaml yaml_str) as [[[|] result]|];
    [| |discriminate]; cbn [bind].
  - intros [= _ <-]. now left.
  - intros H. apply fix_loop_status in H as [->|[->|(k & Hk & ->)]].
    + cbn. tauto.
    + cbn. tauto.
    + cbn in Hk. destruct Hk as [<-|[<-|[<-|[]]]]; cbn; tauto.
Qed.

Lemma process_yaml_status yaml lexer_output content status :
  process_yaml yaml lexer_output = Return (content, status) ->
  In status structurer_statuses.
Proof.
  unfold process_yaml. destruct (_ && _).
  - destruct (_process_multi_doc _ _); [|discriminate].
    cbn [bind]. intros [= _ <-]. cbn. tauto.
  - apply process_single_doc_status.
Qed.

Lemma success_is_not_fail status :
  mem status success_statuses = true ->
  startswith "STRUCTURE_FAIL" status = false.
Proof.
  unfold mem, success_statuses. cbn [existsb].
  repeat match goal with
         | |- context [(status =? ?s)%string] =>
             destruct (String.eqb_spec status s) as [->|_]; [reflexivity|]
         end.
  discriminate.
Qed.

Lemma structurer_status_fail status :
  In status structurer_statuses ->
  startswith "STRUCTURE_FAIL" status = true -> status = STRUCTURE_FAIL.
Proof.
  cbn. intros [<-|[<-|[<-|[<-|[<-|[<-|[<-|[]]]]]]]]; intros H;
    try discriminate H; reflexivity.
Qed.

Lemma length_take n s : String.length (take n s) <= n.
Proof.
  unfold take. revert s. induction n as [|n IH]; intros [|c s]; cbn; try lia.
  specialize (IH s). lia.
Qed.

Section WithCollaborators.

Variable yaml : string -> Outcome.
Variable process_string : string -> Exc string.
Variable read_text : string -> Exc string.
Variable max_size_mb : Z.
Variable format_mb : nat -> string.

Local Abbreviation heal :=
  (heal_manifest yaml process_string read_text max_size_mb format_mb).
Local Abbreviation text_of := (HealingPipeline.text_of read_text).

Lemma text_of_unique raw_content file_path raw raw' :
  text_of raw_content file_path raw -> text_of raw_content file_path raw' ->
  raw = raw'.
Proof.
  intros [[-> E]|(p & -> & E)] [[E1 E']|(p' & E1 & E')]; congruence.
Qed.

(** An envelope is an error response, with one of the statuses of
    [_error_response]'s callers, or the envelope of a run of both phases. *)
Lemma heal_manifest_cases raw_content file_path :
  let e := heal raw_content file_path in
  (success e = false /\ partial_heal e = PyBool false
   /\ phase1_complete e = false
   /\ (In (status e) fixed_guard_statuses
       \/ (exists m, status e = "FILE_READ_ERROR: " ++ m)
       \/ (exists m, status e = "PIPELINE_ERROR: " ++ take 100 m)))
  \/ (exists raw lexed,
        text_of raw_content file_path raw
        /\ process_string raw = Return lexed
        /\ process_yaml yaml lexed = Return (content e, status e)
        /\ success e = mem (status e) success_statuses
        /\ partial_heal e =
             (if startswith "STRUCTURE_FAIL" (status e)
                 && negb (content e =? lexed)%string
              then PyStr (strip (content e)) else PyBool false)
        /\ phase1_complete e = true).
Proof.
  assert (Hcontent : forall raw fp,
             text_of raw_content file_path raw ->
             let e := heal_content yaml process_string max_size_mb format_mb raw fp in
             (success e = false /\ partial_heal e = PyBool false
              /\ phase1_complete e = false
              /\ (In (status e) fixed_guard_statuses
                  \/ (exists m, status e = "FILE_READ_ERROR: " ++ m)
                  \/ (exists m, status e = "PIPELINE_ERROR: " ++ take 100 m)))
             \/ (exists raw lexed,
                   text_of raw_content file_path raw
                   /\ process_string raw = Return lexed
                   /\ process_yaml yaml lexed = Return (content e, status e)
                   /\ success e = mem (status e) success_statuses
                   /\ partial_heal e =
                        (if startswith "STRUCTURE_FAIL" (status e)
                            && negb (content e =? lexed)%string
                         then PyStr (strip (content e)) else PyBool false)
                   /\ phase1_complete e = true)).
  { intros raw fp Htext. unfold heal_content.
    destruct (_ >? _)%Z.
    { left. cbn. repeat split; auto. }
    destruct (_ || _).
    { left. cbn. repeat split; auto. }
    unfold run_phases.
    destruct (process_string raw) as [lexed|m] eqn:Hlex; cbn [bind].
    2:{ left. cbn. repeat split; eauto. }
    destruct (process_yaml yaml lexed) as [[final st]|m] eqn:Hyaml; cbn [bind].
    2:{ left. cbn. repeat split; eauto. }
    right. exists raw, lexed. cbn. repeat split; auto. }
  unfold heal_manifest.
  destruct raw_content as [text|], file_path as [path|].
  - destruct (read_text path) as [raw|m] eqn:Hread.
    + apply Hcontent. right. eauto.
    + left. cbn. repeat split; eauto.
  - apply Hcontent. left. auto.
  - destruct (read_text path) as [raw|m] eqn:Hread.
    + apply Hcontent. right. eauto.
    + left. cbn. repeat split; eauto.
  - left. cbn. repeat split; auto.
Qed.

(** C5.  No envelope has both [success] and [partial_heal] true. *)
Theorem success_excludes_partial_heal raw_content file_path :
  let e := heal raw_content file_path in
  success e && truthy (partial_heal e) = false.
Proof.
  cbv zeta.
  destruct (heal_manifest_cases raw_content file_path)
    as [(-> & _) | (raw & lexed & _ & _ & _ & -> & -> & _)]; [reflexivity|].
  destruct (mem _ success_statuses) eqn:E; [|reflexivity].
  now rewrite (success_is_not_fail _ E).
Qed.

(** C6, as the code has it.  Under every status other than STRUCTURE_FAIL
    [partial_heal] is false, whatever the call: a missing input, a file
    that cannot be read, a fault of the lexer or of the engine, a guard, a
    success or STRUCTURE_PROTECTED_SKIP.  An envelope with status
    STRUCTURE_FAIL comes from a text that was read and lexed and that
    [process_yaml] ended as STRUCTURE_FAIL, and its [partial_heal] is true
    exactly when the content differs from the lexed text and is not blank,
    the lexed text being that of the call. *)
Theorem partial_heal_classification raw_content file_path :
  let e := heal raw_content file_path in
  (status e <> STRUCTURE_FAIL -> truthy (partial_heal e) = false)
  /\ (status e = STRUCTURE_FAIL ->
      exists raw lexed,
        text_of raw_content file_path raw
        /\ process_string raw = Return lexed
        /\ process_yaml yaml lexed = Return (content e, STRUCTURE_FAIL)
        /\ (truthy (partial_heal e) = true
            <-> content e <> lexed /\ strip (content e) <> ""))
  /\ (forall raw lexed,
        text_of raw_content file_path raw ->
        process_string raw = Return lexed ->
        status e = STRUCTURE_FAIL ->
        (truthy (partial_heal e) = true
         <-> content e <> lexed /\ strip (content e) <> "")).
Proof.
  cbv zeta.
  assert (Hiff : forall c lexed,
             truthy (if startswith "STRUCTURE_FAIL" STRUCTURE_FAIL
                        && negb (c =? lexed)%string
                     then PyStr (strip c) else PyBool false) = true
             <-> c <> lexed /\ strip c <> "").
  { intros c lexed.
    change (startswith "STRUCTURE_FAIL" STRUCTURE_FAIL) with true.
    cbn [andb].
    destruct (String.eqb_spec c lexed) as [E|E]; cbn [negb truthy].
    - split; [discriminate|]. intros [H _]. now elim H.
    - destruct (String.eqb_spec (strip c) "") as [E'|E'];
        cbn [negb]; split; auto; try discriminate.
      intros [_ H]. now elim H. }
  destruct (heal_manifest_cases raw_content file_path)
    as [(_ & Hp & _ & Hst) | (raw' & lexed' & Htext' & Hlex' & Hyaml & _ & Hp & _)].
  - assert (Hne : status (heal raw_content file_path) <> STRUCTURE_FAIL).
    { intros E. rewrite E in Hst.
      destruct Hst as [H|[(m & H)|(m & H)]]; [|discriminate H..].
      cbn in H. intuition discriminate. }
    rewrite Hp. split; [reflexivity|].
    split; [intros E; now elim Hne|]. intros raw lexed _ _ E. now elim Hne.
  - rewrite Hp. split; [|split].
    + intros Hne. clear Hiff.
      destruct (startswith "STRUCTURE_FAIL" _) eqn:E; [|reflexivity].
      elim Hne. apply process_yaml_status in Hyaml.
      now apply structurer_status_fail.
    + intros E. exists raw', lexed'. rewrite E in Hyaml |- *.
      split; [exact Htext'|]. split; [exact Hlex'|]. split; [exact Hyaml|].
      apply Hiff.
    + intros raw lexed Htext Hlex E.
      rewrite (text_of_unique _ _ _ _ Htext' Htext), Hlex in Hlex'.
      injection Hlex' as <-. rewrite E. apply Hiff.
Qed.

(** C7, as the code has it.  The status of an envelope is one of the ten
    fixed names, or [FILE_READ_ERROR: ] followed by the cause, or
    [PIPELINE_ERROR: ] followed by at most 100 characters of the fault. *)
Theorem status_vocabulary_with_messages raw_content file_path :
  let e := heal raw_content file_path in
  In (status e) (structurer_statuses ++ fixed_guard_statuses)%list
  \/ (exists m, status e = "FILE_READ_ERROR: " ++ m)
  \/ (exists m, status e = "PIPELINE_ERROR: " ++ m /\ String.length m <= 100).
Proof.
  cbv zeta.
  destruct (heal_manifest_cases raw_content file_path)
    as [(_ & _ & _ & [H|[H|(m & H)]]) | (raw & lexed & _ & _ & Hyaml & _)].
  - left. apply in_or_app. now right.
  - auto.
  - right. right. exists (take 100 m). split; [exact H|apply length_take].
  - left. apply in_or_app. left. eapply process_yaml_status; eauto.
Qed.

(** C8, as the code has it.  [phase1_complete] is true exactly when both
    phases returned, the status then being one of the structurer's; it is
    false exactly when an input guard rejected the input or a fault was
    caught and reported as [PIPELINE_ERROR: ...]. *)
Theorem phase1_complete_classification raw_content file_path :
  let e := heal raw_content file_path in
  (phase1_complete e = true <-> In (status e) structurer_statuses)
  /\ (phase1_complete e = false
      <-> guard_rejected (status e) = true
          \/ startswith "PIPELINE_ERROR: " (status e) = true).
Proof.
  cbv zeta.
  destruct (heal_manifest_cases raw_content file_path)
    as [(_ & _ & -> & Hst) | (raw & lexed & _ & _ & Hyaml & _ & _ & ->)].
  - assert (Herr : guard_rejected (status (heal raw_content file_path)) = true
                   \/ startswith "PIPELINE_ERROR: " (status (heal raw_content file_path)) = true).
    { destruct Hst as [H|[(m & ->)|(m & ->)]].
      - left. cbn in H. destruct H as [<-|[<-|[<-|[]]]]; reflexivity.
      - left. unfold guard_rejected. apply orb_true_iff. right.
        apply (ErrorTextFacts.startswith_app "FILE_READ_ERROR" (": " ++ m)).
      - right. apply ErrorTextFacts.startswith_app. }
    split; split; auto; try discriminate.
    intros H. exfalso. cbn in H.
    destruct Herr as [Hg|Hp];
      destruct H as [E|[E|[E|[E|[E|[E|[E|[]]]]]]]];
      rewrite <- E in *; discriminate.
  - apply process_yaml_status in Hyaml.
    split; split; auto; try discriminate.
    intros H. exfalso. cbn in Hyaml.
    destruct H as [Hg|Hp];
      destruct Hyaml as [E|[E|[E|[E|[E|[E|[E|[]]]]]]]];
      rewrite <- E in *; discriminate.
Qed.

End WithCollaborators.

End PipelineFacts.

(** * Worked examples *)

Module Examples.

Import Py KubeStructurer HealingPipeline Scenarios.
Import FixFacts LoopFacts RepairFacts MultiDocFacts PipelineFacts.

(** The primitives on small inputs. *)
Example splitlines_crlf :
  splitlines ("a:" ++ cr ++ nl ++ "b" ++ nl) = ["a:"; "b"]
  /\ splitlines (nl ++ nl) = [""; ""].
Proof. split; reflexivity. Qed.

Example int_grammar :
  int " 1_2 " = Some 12%Z /\ int "-3" = Some (-3)%Z
  /\ int "1__2" = None /\ int "" = None /\ int "+ 5" = None.
Proof. repeat split. Qed.

Example int_refuses_separators :
  int (String (ascii_of_nat 28) "5") = None
  /\ _extract_line ("STRUCTURE_ERROR:L" ++ String (ascii_of_nat 28) "5") = (-1)%Z
  /\ int (String (ascii_of_nat 160) "5") = Some 5%Z.
Proof. repeat split. Qed.

Example extract_line_cases :
  _extract_line "STRUCTURE_ERROR:L5:C3:mapping values are not allowed here" = 4%Z
  /\ _extract_line "STRUCTURE_ERROR:unacceptable character" = (-1)%Z
  /\ _extract_line "STRUCTURE_ERROR:Lx:C3" = (-1)%Z.
Proof. repeat split. Qed.

Example normalize_line_endings_mixed :
  _normalize_line_endings ("a" ++ cr ++ nl ++ "b" ++ cr ++ "c" ++ nl ++ nl)
  = text ["a"; "b"; "c"].
Proof. reflexivity. Qed.

Example split_documents_only_at_line_start :
  split_documents (text ["---"; "a: 1"; "---"; "b: --- x"])
  = [text ["---"; "a: 1"]; text ["---"; "b: --- x"]].
Proof. reflexivity. Qed.

(** The over-indented [image:] of a container: its parent is the key
    [containers:], two lines up, past the sequence item. *)
Example fix_over_indented_child :
  auto_fix_indentation
    (text ["spec:"; "  containers:"; "  - name: a"; "      image: x"])
    "STRUCTURE_ERROR:L4:C12:mapping values are not allowed here"
  = Return (text ["spec:"; "  containers:"; "  - name: a"; "    image: x"]).
Proof. reflexivity. Qed.

(** The ten statuses that are fixed texts. *)
Example fixed_statuses :
  (structurer_statuses ++ fixed_guard_statuses)%list
  = ["STRUCTURE_OK"; "STRUCTURE_FIXED_1"; "STRUCTURE_FIXED_2";
     "STRUCTURE_FIXED_3"; "MULTI_DOC_HANDLED"; "STRUCTURE_PROTECTED_SKIP";
     "STRUCTURE_FAIL"; "MISSING_INPUT"; "FILE_TOO_LARGE"; "EMPTY_INPUT"].
Proof. reflexivity. Qed.

(** Blank input is rejected by the guard, before the lexer runs. *)
Example blank_input_rejected :
  let e := heal_manifest reader_engine lexer_id no_files 10 format_mb_cut
             (Some ("   " ++ nl ++ tab ++ nl)) None in
  status e = "EMPTY_INPUT" /\ success e = false /\ phase1_complete e = false.
Proof. repeat split. Qed.

Lemma protected_lines_never_rewritten_witness :
  map _is_protected_structure (splitlines guarded_doc)
  = [true; false; false; true]
  /\ auto_fix_indentation guarded_doc "STRUCTURE_ERROR:L3:C4:x"
     = Return guarded_doc_fixed
  /\ exists lines',
       guarded_doc_fixed = join nl lines'
       /\ List.length lines' = 4
       /\ nth_error lines' 0 = Some "---"
       /\ nth_error lines' 3 = Some "*ref".
Proof.
  split; [reflexivity|]. split; [reflexivity|].
  destruct (protected_lines_never_rewritten guarded_doc
              "STRUCTURE_ERROR:L3:C4:x" guarded_doc_fixed eq_refl)
    as [H | (lines' & Hjoin & Hlen & Hkept)]; [discriminate H|].
  exists lines'. split; [exact Hjoin|]. split; [exact Hlen|].
  split; [apply (Hkept 0 "---") | apply (Hkept 3 "*ref")]; reflexivity.
Defined.

Lemma fix_application_witness :
  auto_fix_indentation tabbed_doc "STRUCTURE_ERROR:L2:C4:x"
  = Return (text ["a:"; "  b:  c"]).
Proof.
  destruct (fix_application tabbed_doc "STRUCTURE_ERROR:L2:C4:x" 1
              ("   b:" ++ tab ++ "c") eq_refl eq_refl eq_refl)
    as (parent & Hparent & Hfix & _).
  injection Hparent as <-. exact Hfix.
Defined.

(** The rewrite of a line with a tab changes its trimmed content. *)
Lemma trimmed_content_not_preserved :
  nth_error (splitlines tabbed_doc) 1 = Some ("   b:" ++ tab ++ "c")
  /\ _is_protected_structure ("   b:" ++ tab ++ "c") = false
  /\ _extract_line "STRUCTURE_ERROR:L2:C4:x" = 1%Z
  /\ auto_fix_indentation tabbed_doc "STRUCTURE_ERROR:L2:C4:x"
     = Return (text ["a:"; "  b:  c"])
  /\ strip "  b:  c" <> strip ("   b:" ++ tab ++ "c").
Proof. repeat split. discriminate. Qed.

Lemma unlocalized_failure_disables_fix_witness :
  auto_fix_indentation control_doc
    (failure_text None
       "unacceptable character #x0001: special characters are not allowed")
  = Return control_doc
  /\ (STRUCTURE_PROTECTED_SKIP = STRUCTURE_FAIL
      \/ STRUCTURE_PROTECTED_SKIP = STRUCTURE_PROTECTED_SKIP).
Proof.
  destruct (unlocalized_failure_disables_fix reader_engine control_doc
              (failure_text None
                 "unacceptable character #x0001: special characters are not allowed")
              eq_refl eq_refl) as (Hfix & _ & Hout).
  split; [apply Hfix|].
  apply (Hout control_doc STRUCTURE_PROTECTED_SKIP). reflexivity.
Defined.

Lemma unlocalized_failure_checks_last_line_witness :
  _process_single_doc reader_engine control_doc
  = Return (control_doc, STRUCTURE_PROTECTED_SKIP).
Proof.
  apply (unlocalized_failure_checks_last_line reader_engine control_doc
           "unacceptable character #x0001: special characters are not allowed"
           ["a: " ++ String (ascii_of_nat 1) ""] "..."); reflexivity.
Defined.

Lemma multi_doc_success_with_unparseable_content_witness :
  process_yaml flow_engine (flow_doc ++ nl)
  = Return (flow_doc_fixed, MULTI_DOC_HANDLED)
  /\ mem MULTI_DOC_HANDLED success_statuses = true
  /\ parses flow_engine flow_doc_fixed = false.
Proof.
  apply (multi_doc_success_with_unparseable_content flow_engine
           4 "while parsing a flow node" 6 "while parsing a flow node");
    reflexivity.
Defined.

(** The envelope of that stream: a success. *)
Example multi_doc_envelope :
  let e := heal_manifest flow_engine lexer_id no_files 10 format_mb_cut
             (Some (flow_doc ++ nl)) None in
  status e = MULTI_DOC_HANDLED /\ success e = true
  /\ content e = flow_doc_fixed /\ parses flow_engine (content e) = false.
Proof. repeat split. Qed.

Lemma partial_heal_classification_witness :
  (let e := heal_manifest flow_top_engine lexer_id no_files 10 format_mb_cut
              (Some flow_top) None in
   status e = STRUCTURE_FAIL
   /\ (truthy (partial_heal e) = true
       <-> content e <> flow_top /\ strip (content e) <> ""))
  /\ (let e := heal_manifest flow_top_engine lexer_id no_files 10 format_mb_cut
                 None None in
      status e = "MISSING_INPUT" /\ truthy (partial_heal e) = false)
  /\ (let e := heal_manifest reader_engine lexer_id no_files 10 format_mb_cut
                 None (Some "missing.yaml") in
      status e <> STRUCTURE_FAIL /\ truthy (partial_heal e) = false)
  /\ (let e := heal_manifest two_docs_engine lexer_id no_files 10 format_mb_cut
                 (Some (two_docs ++ nl)) None in
      status e = STRUCTURE_PROTECTED_SKIP /\ truthy (partial_heal e) = false).
Proof.
  split; [|split; [|split]]; cbv zeta.
  - split; [reflexivity|].
    destruct (partial_heal_classification flow_top_engine lexer_id no_files 10
                format_mb_cut (Some flow_top) None) as (_ & _ & H).
    apply (H flow_top flow_top).
    + left. split; reflexivity.
    + reflexivity.
    + reflexivity.
  - split; [reflexivity|].
    destruct (partial_heal_classification flow_top_engine lexer_id no_files 10
                format_mb_cut None None) as (H & _).
    apply H. discriminate.
  - assert (Hne : status (heal_manifest reader_engine lexer_id no_files 10
                            format_mb_cut None (Some "missing.yaml"))
                  <> STRUCTURE_FAIL) by discriminate.
    split; [exact Hne|].
    destruct (partial_heal_classification reader_engine lexer_id no_files 10
                format_mb_cut None (Some "missing.yaml")) as (H & _).
    apply H. exact Hne.
  - split; [reflexivity|].
    destruct (partial_heal_classification two_docs_engine lexer_id no_files 10
                format_mb_cut (Some (two_docs ++ nl)) None) as (H & _).
    apply H. discriminate.
Defined.

(** That envelope: STRUCTURE_FAIL after three attempts, the first of which
    indented the line, and a partial heal. *)
Example partial_heal_envelope :
  let e := heal_manifest flow_top_engine lexer_id no_files 10 format_mb_cut
             (Some flow_top) None in
  status e = STRUCTURE_FAIL /\ content e = flow_top_fixed
  /\ success e = false /\ truthy (partial_heal e) = true
  /\ phase1_complete e = true
  /\ map attempt_number (repair_log flow_top_engine flow_top) = [1; 2; 3]
  /\ map attempt_input (repair_log flow_top_engine flow_top)
     = [flow_top; flow_top_fixed; flow_top_fixed].
Proof. repeat split. Qed.

Lemma repair_loop_bounded_and_chained_witness :
  _process_single_doc flow_top_engine flow_top
  = Return (flow_top_fixed, STRUCTURE_FAIL)
  /\ map attempt_input (repair_log flow_top_engine flow_top)
     = [flow_top; flow_top_fixed; flow_top_fixed]
  /\ map attempt_failure (repair_log flow_top_engine flow_top)
     = ["STRUCTURE_ERROR:L1:C5:while parsing a flow node";
        "STRUCTURE_ERROR:L1:C7:while parsing a flow node";
        "STRUCTURE_ERROR:L1:C7:while parsing a flow node"].
Proof.
  destruct (repair_loop_bounded_and_chained flow_top_engine flow_top)
    as (_ & _ & _ & _ & _ & _ & _ & _ & _ & _ & _ & _ & Hfail).
  apply (Hfail "STRUCTURE_ERROR:L1:C5:while parsing a flow node"
               flow_top_fixed
               "STRUCTURE_ERROR:L1:C7:while parsing a flow node"
               flow_top_fixed
               "STRUCTURE_ERROR:L1:C7:while parsing a flow node"
               flow_top_fixed
               "STRUCTURE_ERROR:L1:C7:while parsing a flow node");
    try reflexivity;
    (split; [reflexivity | exists flow_top_fixed; split; reflexivity]).
Defined.

(** A document that ends as STRUCTURE_PROTECTED_SKIP after one line was
    rewritten: a failure status, a content that differs from the lexed
    text and is not blank, and [partial_heal] false. *)
Lemma protected_skip_is_not_partial_heal :
  let raw := two_docs ++ nl in
  let e := heal_manifest two_docs_engine lexer_id no_files 10 format_mb_cut
             (Some raw) None in
  lexer_id raw = Return raw
  /\ status e = STRUCTURE_PROTECTED_SKIP
  /\ success e = false
  /\ content e = two_docs_fixed
  /\ content e <> raw
  /\ strip (content e) <> ""
  /\ truthy (partial_heal e) = false.
Proof. repeat split; discriminate. Qed.

(** The status of a file that cannot be read is not one of the twelve
    names: the cause follows the name. *)
Lemma file_read_error_status_carries_cause :
  let e := heal_manifest reader_engine lexer_id no_files 10 format_mb_cut
             None (Some "missing.yaml") in
  status e = "FILE_READ_ERROR: [Errno 2] No such file or directory: 'missing.yaml'"
  /\ ~ In (status e) status_vocabulary.
Proof.
  split; [reflexivity|]. cbn. intros H.
  repeat (destruct H as [H|H]; [discriminate H|]). exact H.
Qed.

(** A fault of the engine, caught after the guards let the input through
    and the lexer ran: [phase1_complete] is false. *)
Lemma caught_fault_reports_phase1_incomplete :
  let e := heal_manifest faulty_engine lexer_id no_files 10 format_mb_cut
             (Some "a: 1") None in
  lexer_id "a: 1" = Return "a: 1"
  /\ status e = "PIPELINE_ERROR: maximum recursion depth exceeded"
  /\ guard_rejected (status e) = false
  /\ phase1_complete e = false.
Proof. repeat split. Qed.

End Examples.

(** * Further properties of the structurer *)

Module NormalizeFacts.

Import Py PyFacts KubeStructurer.

Lemma replace_char_cons a new c s :
  replace (String a "") new (String c s) =
  if (c =? a)%char then new ++ replace (String a "") new s
  else String c (replace (String a "") new s).
Proof.
  unfold replace. cbn [replace_from prefix String.length Nat.sub].
  destruct (ascii_dec a c) as [<-|Hne].
  - rewrite Ascii.eqb_refl. destruct s; reflexivity.
  - destruct (Ascii.eqb_spec c a) as [->|_]; [now elim Hne | reflexivity].
Qed.

Lemma contains_char_cons a c s :
  contains (String a "") (String c s) = (c =? a)%char || contains (String a "") s.
Proof.
  cbn [contains prefix].
  destruct (ascii_dec a c) as [<-|Hne].
  - rewrite Ascii.eqb_refl. destruct s; reflexivity.
  - destruct (Ascii.eqb_spec c a) as [->|_]; [now elim Hne | reflexivity].
Qed.

Lemma contains_char_app a s t :
  contains (String a "") (s ++ t)
  = contains (String a "") s || contains (String a "") t.
Proof.
  induction s as [|c s IH]; [reflexivity|].
  cbn [append]. rewrite !contains_char_cons, IH. now rewrite orb_assoc.
Qed.

Lemma replace_cr_no_cr s : contains cr (replace cr nl s) = false.
Proof.
  unfold cr. induction s as [|c s IH]; [reflexivity|].
  rewrite replace_char_cons.
  destruct (Ascii.eqb_spec c CR) as [->|Hne].
  - rewrite contains_char_app, IH. reflexivity.
  - rewrite contains_char_cons, IH.
    destruct (Ascii.eqb_spec c CR); [contradiction|reflexivity].
Qed.

Lemma rstrip_keeps_absence a s :
  contains (String a "") s = false -> contains (String a "") (rstrip s) = false.
Proof.
  induction s as [|c s IH]; [reflexivity|].
  rewrite contains_char_cons. intros H. apply orb_false_elim in H as [Hc Hs].
  specialize (IH Hs). cbn [rstrip].
  destruct (rstrip s) as [|d r].
  - destruct (isspace c); [reflexivity|]. now rewrite contains_char_cons, Hc.
  - now rewrite contains_char_cons, Hc, IH.
Qed.

Lemma replace_char_absent a new s :
  contains (String a "") s = false -> replace (String a "") new s = s.
Proof.
  induction s as [|c s IH]; [reflexivity|].
  rewrite contains_char_cons, replace_char_cons.
  intros H. apply orb_false_elim in H as [-> Hs]. now rewrite IH.
Qed.

Lemma replace_crlf_absent s :
  contains cr s = false -> replace (cr ++ nl) nl s = s.
Proof.
  unfold cr, replace.
  induction s as [|c s IH]; [reflexivity|].
  rewrite contains_char_cons. intros H. apply orb_false_elim in H as [Hc Hs].
  cbn [replace_from append prefix].
  destruct (ascii_dec CR c) as [<-|_]; [discriminate Hc|].
  f_equal. exact (IH Hs).
Qed.

Lemma normalized_shape yaml_str :
  contains cr (_normalize_line_endings yaml_str) = false
  /\ rstrip (_normalize_line_endings yaml_str) = _normalize_line_endings yaml_str.
Proof.
  unfold _normalize_line_endings. split.
  - apply rstrip_keeps_absence, replace_cr_no_cr.
  - apply rstrip_idem.
Qed.

(** X1.  The normalized text has no carriage return and no trailing white
    space, and normalizing it again changes nothing. *)
Theorem normalize_line_endings_canonical yaml_str :
  let normalized := _normalize_line_endings yaml_str in
  contains cr normalized = false
  /\ rstrip normalized = normalized
  /\ _normalize_line_endings normalized = normalized.
Proof.
  destruct (normalized_shape yaml_str) as [Hcr Hr].
  cbv zeta. split; [exact Hcr|]. split; [exact Hr|].
  unfold _normalize_line_endings at 1.
  rewrite (replace_crlf_absent _ Hcr).
  unfold cr at 1. rewrite (replace_char_absent _ _ _ Hcr). exact Hr.
Qed.

End NormalizeFacts.

Module ProtectionFacts.

Import Py PyFacts KubeStructurer StructurerFacts ErrorTextFacts RepairFacts.

Lemma protected_by_trimmed_content a b :
  strip a = strip b -> _is_protected_structure a = _is_protected_structure b.
Proof.
  intros H. unfold _is_protected_structure, _is_anchor_or_alias. now rewrite H.
Qed.

(** X2.  Re-indenting a line as the fix does (tabs expanded, leading white
    space replaced by any number of spaces, trailing white space dropped)
    does not change whether the line is protected. *)
Theorem reindenting_keeps_protection line n :
  _is_protected_structure
    (rstrip (repeat " " n ++ lstrip (replace tab "  " line)))
  = _is_protected_structure line.
Proof.
  change (replace tab "  " line) with (expand_tabs line).
  rewrite <- (protected_expand_tabs line).
  apply protected_by_trimmed_content, strip_reindented.
Qed.

Section WithEngine.

Variable yaml : string -> Outcome.

Local Abbreviation validate := (validate_and_roundtrip yaml).

(** X3.  The line number of the engine's mark survives the trip through
    the failure text: [_extract_line] reads back the mark's line. *)
Theorem failure_text_carries_the_line t line column e :
  yaml t = YAMLError (Some (line, column)) e ->
  exists result,
    validate t = Return (false, result)
    /\ _extract_line result = Z.of_nat line.
Proof.
  intros H. eexists. split; [apply (validate_YAMLError _ _ _ _ H)|].
  apply extract_line_localized.
Qed.

(** X4.  A failure without a mark whose message begins with [L], a number
    and a colon is read as a failure located at that line. *)
Theorem markless_message_read_as_location t n rest :
  yaml t = YAMLError None ("L" ++ str_nat (n + 1) ++ ":" ++ rest) ->
  exists result,
    validate t = Return (false, result)
    /\ _extract_line result = Z.of_nat n.
Proof.
  intros H. eexists. split; [apply (validate_YAMLError _ _ _ _ H)|].
  unfold failure_text, _extract_line.
  change ("STRUCTURE_ERROR:" ++ "L" ++ ?x) with ("STRUCTURE_ERROR:L" ++ x).
  rewrite startswith_app. cbn [negb].
  change ("STRUCTURE_ERROR:L" ++ ?x) with ("STRUCTURE_ERROR" ++ String ":" ("L" ++ x)).
  rewrite split_colon by reflexivity.
  replace ("L" ++ str_nat (n + 1) ++ ":" ++ rest)
    with (("L" ++ str_nat (n + 1)) ++ String ":" rest) by reflexivity.
  rewrite split_colon
    by (cbn [append no_colon]; apply all_digits_no_colon, str_nat_digits).
  cbn [nth_error append tail]. rewrite int_str_nat. lia.
Qed.

(** X5.  When the first failure is located on a protected line, the
    document comes back unchanged with STRUCTURE_PROTECTED_SKIP. *)
Theorem protected_target_is_skipped yaml_str line_no column e line :
  yaml yaml_str = YAMLError (Some (line_no, column)) e ->
  nth_error (splitlines yaml_str) line_no = Some line ->
  _is_protected_structure line = true ->
  _process_single_doc yaml yaml_str
  = Return (yaml_str, STRUCTURE_PROTECTED_SKIP).
Proof.
  intros Hy Hline Hprot.
  assert (Hlt : line_no < List.length (splitlines yaml_str))
    by (apply nth_error_Some; congruence).
  unfold _process_single_doc.
  rewrite (validate_YAMLError _ _ _ _ Hy). cbn [bind KubeStructurer.fix_loop].
  assert (Hfix : auto_fix_indentation yaml_str
                   (failure_text (Some (line_no, column)) e) = Return yaml_str).
  { unfold auto_fix_indentation. rewrite extract_line_localized.
    replace (Z.of_nat line_no =? -1)%Z with false
      by (symmetry; apply Z.eqb_neq; lia).
    replace (Z.of_nat line_no >=? _)%Z with false
      by (symmetry; rewrite Z.geb_leb; apply Z.leb_gt; lia).
    rewrite (getitem_nat _ _ _ Hline). cbn [bind].
    change (replace tab "  " line) with (expand_tabs line).
    now rewrite protected_expand_tabs, Hprot. }
  rewrite Hfix. cbn [bind]. rewrite extract_line_localized.
  rewrite (getitem_nat _ _ _ Hline). cbn [bind]. now rewrite Hprot.
Qed.

(** X6.  The content of a single document that ends as STRUCTURE_OK or
    STRUCTURE_FIXED_n has no trailing white space. *)
Theorem canonical_content_has_no_trailing_space yaml_str content status :
  _process_single_doc yaml yaml_str = Return (content, status) ->
  status = STRUCTURE_OK \/ (exists n, status = STRUCTURE_FIXED n) ->
  rstrip content = content.
Proof.
  intros H Hst.
  destruct (LoopFacts.single_doc_success_is_a_dump yaml _ _ _ H Hst)
    as (t & out & _ & ->).
  apply rstrip_idem.
Qed.

End WithEngine.

End ProtectionFacts.

Module DocumentFacts.

Import Py PyFacts KubeStructurer Notions.

Lemma split_documents_nonempty s : split_documents s <> [].
Proof.
  destruct s as [|c s]; [discriminate|]. cbn [split_documents].
  destruct (_ && _); [discriminate|].
  destruct (split_documents s); discriminate.
Qed.

Lemma join_cons sep p q ps :
  join sep (p :: q :: ps) = p ++ sep ++ join sep (q :: ps).
Proof. reflexivity. Qed.

Lemma join_head_cons sep c p ps :
  join sep (String c p :: ps) = String c (join sep (p :: ps)).
Proof. destruct ps; reflexivity. Qed.

Lemma split_documents_join s : join nl (split_documents s) = s.
Proof.
  induction s as [|c s IH]; [reflexivity|].
  cbn [split_documents].
  destruct ((c =? LF)%char && startswith "---" s) eqn:E.
  - apply andb_prop in E as [Hc _]. apply Ascii.eqb_eq in Hc. subst c.
    destruct (split_documents s) as [|q ps] eqn:Es;
      [now apply split_documents_nonempty in Es|].
    rewrite join_cons, IH. reflexivity.
  - destruct (split_documents s) as [|q ps] eqn:Es;
      [now apply split_documents_nonempty in Es|].
    rewrite join_head_cons, IH. reflexivity.
Qed.

(** A pattern without line feed. *)
Lemma split_documents_head p s :
  contains nl p = false ->
  startswith p s = true ->
  exists h t, split_documents s = h :: t /\ startswith p h = true.
Proof.
  unfold startswith. revert s.
  induction p as [|a p IH]; intros s Hp Hs.
  - destruct (split_documents s) as [|h t] eqn:E;
      [now apply split_documents_nonempty in E|].
    exists h, t. split; [reflexivity|]. now destruct h.
  - destruct s as [|c s]; [discriminate|].
    cbn [prefix] in Hs. destruct (ascii_dec a c) as [<-|]; [|discriminate].
    unfold nl in Hp. rewrite NormalizeFacts.contains_char_cons in Hp.
    apply orb_false_elim in Hp as [Ha Hp].
    cbn [split_documents]. rewrite Ha. cbn [andb].
    destruct (IH s Hp Hs) as (h & t & -> & Hh).
    exists (String a h), t. split; [reflexivity|].
    cbn [prefix]. now destruct (ascii_dec a a).
Qed.

Lemma split_documents_tail s :
  Forall (fun doc => startswith "---" doc = true) (List.tl (split_documents s)).
Proof.
  induction s as [|c s IH]; [constructor|].
  cbn [split_documents].
  destruct ((c =? LF)%char && startswith "---" s) eqn:E.
  - apply andb_prop in E as [_ Hs]. cbn [List.tl].
    destruct (split_documents_head "---" s eq_refl Hs) as (h & t & Es & Hh).
    rewrite Es in *. constructor; [exact Hh|exact IH].
  - destruct (split_documents s) as [|q ps]; [constructor|exact IH].
Qed.

(** X7.  Splitting a stream into documents loses nothing: the fragments
    joined by a line feed are the stream again, and every fragment after
    the first begins with [---]. *)
Theorem split_documents_partitions_the_stream s :
  join nl (split_documents s) = s
  /\ Forall (fun doc => startswith "---" doc = true)
            (List.tl (split_documents s)).
Proof. split; [apply split_documents_join|apply split_documents_tail]. Qed.

Lemma prefix_rstrip p x : prefix p (rstrip x) = true -> prefix p x = true.
Proof.
  revert p. induction x as [|c x IH]; intros p; [auto|].
  destruct p as [|a p]; [reflexivity|].
  cbn [rstrip]. destruct (rstrip x) as [|d r] eqn:E.
  - destruct (isspace c); [discriminate|].
    cbn [prefix]. destruct (ascii_dec a c); [|discriminate].
    destruct p; [|discriminate]. intros _. now destruct x.
  - cbn [prefix]. destruct (ascii_dec a c); [|discriminate]. apply IH.
Qed.

Lemma prefix_contains p x : prefix p x = true -> contains p x = true.
Proof. intros H. destruct x; cbn [contains]; now rewrite H. Qed.

Lemma contains_lstrip p s : contains p (lstrip s) = true -> contains p s = true.
Proof.
  induction s as [|c s IH]; [auto|].
  cbn [lstrip]. destruct (isspace c); [|auto].
  intros H. cbn [contains]. rewrite (IH H). apply orb_true_r.
Qed.

Lemma startswith_strip_contains p s :
  startswith p (strip s) = true -> contains p s = true.
Proof.
  unfold startswith, strip. intros H.
  apply contains_lstrip, prefix_contains, prefix_rstrip, H.
Qed.

Lemma single_doc_never_multi yaml yaml_str content :
  _process_single_doc yaml yaml_str <> Return (content, MULTI_DOC_HANDLED).
Proof.
  unfold _process_single_doc.
  destruct (validate_and_roundtrip yaml yaml_str) as [[[|] result]|];
    cbn [bind]; try discriminate.
  intros H. apply PipelineFacts.fix_loop_status in H.
  destruct H as [H|[H|(k & _ & H)]]; discriminate H.
Qed.

(** X8.  [process_yaml] answers MULTI_DOC_HANDLED exactly when the
    normalized text, leading white space aside, begins with [---]; the
    test that [---] occurs in the text adds nothing. *)
Theorem multi_doc_branch_iff_leading_marker yaml lexer_output content status :
  process_yaml yaml lexer_output = Return (content, status) ->
  (status = MULTI_DOC_HANDLED
   <-> startswith "---" (strip (_normalize_line_endings lexer_output)) = true).
Proof.
  unfold process_yaml.
  destruct (startswith "---" (strip (_normalize_line_endings lexer_output))) eqn:E.
  - rewrite (startswith_strip_contains _ _ E). cbn [andb].
    destruct (_process_multi_doc _ _); [|discriminate].
    cbn [bind]. intros [= _ <-]. split; auto.
  - rewrite andb_false_r. intros H.
    split; [|discriminate]. intros ->.
    now apply single_doc_never_multi in H.
Qed.

End DocumentFacts.

Module ParentFacts.

Import Py PyFacts KubeStructurer Notions.

Lemma getitem_middle {A} (xs : list A) x rest :
  getitem (xs ++ x :: rest)%list (Z.of_nat (List.length xs)) = Return x.
Proof.
  apply getitem_nat. rewrite nth_error_app2 by lia.
  now rewrite Nat.sub_diag.
Qed.

Lemma find_parent_indent_below_scan lines_above :
  forall rest,
    _find_parent_indent_below (lines_above ++ rest)%list (List.length lines_above)
    = Return match find is_parent_key (rev lines_above) with
             | Some key => key_indent key
             | None => 0
             end.
Proof.
  induction lines_above as [|x xs IH] using rev_ind; intros rest; [reflexivity|].
  rewrite length_app, Nat.add_1_r, rev_app_distr, <- app_assoc.
  cbn [List.length app rev find _find_parent_indent_below].
  rewrite getitem_middle. cbn [bind].
  unfold is_parent_key, key_indent, raw_content_of.
  destruct (_ || _); cbn [negb andb].
  - apply (IH (x :: rest)).
  - destruct (_ && _); [reflexivity|apply (IH (x :: rest))].
Qed.

(** X9.  The parent indent of line [k] is the indent of the nearest line
    above it that is a mapping key (blank lines, comments, protected lines,
    sequence items and lines not ending with [:] are passed over), and 0
    when there is none; the lines from [k] on play no part. *)
Theorem parent_indent_is_nearest_key_above lines_above rest :
  _find_parent_indent (lines_above ++ rest)%list
    (Z.of_nat (List.length lines_above))
  = Return match find is_parent_key (rev lines_above) with
           | Some key => key_indent key
           | None => 0
           end.
Proof.
  unfold _find_parent_indent. rewrite Nat2Z.id.
  apply find_parent_indent_below_scan.
Qed.

Example parent_indent_example :
  _find_parent_indent
    ["spec:"; "  containers:   # the pods"; ""; "  # a comment";
     "  - name: a"; "      image: x"] 5
  = Return 2.
Proof. reflexivity. Qed.

End ParentFacts.

Module ReportFacts.

Import Py PyFacts KubeStructurer HealingPipeline.

Lemma report_changes_length i original_lines final_lines :
  List.length (report_changes i original_lines final_lines)
  <= Nat.min (List.length original_lines) (List.length final_lines).
Proof.
  revert i final_lines.
  induction original_lines as [|orig os IH]; intros i [|fixed fs]; cbn; try lia.
  specialize (IH (i + 1) fs). destruct (negb _); cbn [List.length]; lia.
Qed.

Lemma report_changes_In i original_lines final_lines c :
  In c (report_changes i original_lines final_lines)
  <-> exists k orig fixed,
        nth_error original_lines k = Some orig
        /\ nth_error final_lines k = Some fixed
        /\ orig <> fixed
        /\ c = {| line := i + k + 1; original := orig; fixed := fixed;
                  indent_original := indent_of orig;
                  indent_fixed := indent_of fixed |}.
Proof.
  revert i final_lines.
  induction original_lines as [|orig os IH]; intros i final_lines.
  - cbn. split; [intros []|]. intros (k & a & b & H & _). destruct k; discriminate.
  - destruct final_lines as [|fixed fs].
    + cbn. split; [intros []|]. intros (k & a & b & _ & H & _). destruct k; discriminate.
    + cbn [report_changes].
      assert (Hrest : In c (report_changes (i + 1) os fs)
                      <-> exists k a b,
                            nth_error (orig :: os) (S k) = Some a
                            /\ nth_error (fixed :: fs) (S k) = Some b
                            /\ a <> b
                            /\ c = {| line := i + S k + 1; original := a; fixed := b;
                                      indent_original := indent_of a;
                                      indent_fixed := indent_of b |}).
      { rewrite IH. split; intros (k & a & b & Ha & Hb & Hne & ->);
          exists k, a, b; repeat split; auto; f_equal; lia. }
      destruct (String.eqb_spec orig fixed) as [E|E]; cbn [negb].
      * rewrite Hrest. split.
        -- intros (k & a & b & H). exists (S k), a, b. exact H.
        -- intros ([|k] & a & b & Ha & Hb & Hne & Hc).
           ++ cbn in Ha, Hb. congruence.
           ++ exists k, a, b. auto.
      * cbn [In]. rewrite Hrest. split.
        -- intros [<-|(k & a & b & H)].
           ++ exists 0, orig, fixed. repeat split; auto. f_equal. lia.
           ++ exists (S k), a, b. exact H.
        -- intros ([|k] & a & b & Ha & Hb & Hne & Hc).
           ++ cbn in Ha, Hb. injection Ha as <-. injection Hb as <-.
              left. rewrite Hc. f_equal. lia.
           ++ right. exists k, a, b. auto.
Qed.

Lemma report_changes_lines_above i original_lines final_lines :
  Forall (fun c => i < line c) (report_changes i original_lines final_lines).
Proof.
  apply Forall_forall. intros c Hc.
  apply report_changes_In in Hc as (k & a & b & _ & _ & _ & ->). cbn. lia.
Qed.

Lemma report_changes_sorted i original_lines final_lines :
  StronglySorted (fun c d => line c < line d)
    (report_changes i original_lines final_lines).
Proof.
  revert i final_lines.
  induction original_lines as [|orig os IH]; intros i [|fixed fs];
    cbn [report_changes]; try constructor.
  destruct (negb _); [|apply IH].
  constructor; [apply IH|].
  eapply Forall_impl; [|apply report_changes_lines_above].
  cbn. intros c Hc. lia.
Qed.

(** X10.  The change list of a report holds exactly the positions at which
    both texts have a line and the two lines differ, each with its 1-based
    line number, both lines and their indents; lines that only one of the
    texts has are not recorded. *)
Theorem report_records_the_differing_lines original final status c :
  In c (ReportFields.changes (full_healing_report original final status))
  <-> exists k orig fixed,
        nth_error (splitlines original) k = Some orig
        /\ nth_error (splitlines final) k = Some fixed
        /\ orig <> fixed
        /\ c = {| line := k + 1; original := orig; fixed := fixed;
                  indent_original := indent_of orig;
                  indent_fixed := indent_of fixed |}.
Proof. apply (report_changes_In 0). Qed.

(** X11.  In a report, [lines_changed] is the length of the change list,
    at most the number of lines of either text, so at most [total_lines];
    the changes are listed by increasing line number. *)
Theorem report_counts_are_bounded original final status :
  let r := full_healing_report original final status in
  ReportFields.total_lines r = List.length (splitlines original)
  /\ ReportFields.lines_changed r = List.length (ReportFields.changes r)
  /\ ReportFields.lines_changed r <= ReportFields.total_lines r
  /\ ReportFields.lines_changed r <= List.length (splitlines final)
  /\ StronglySorted (fun c d => line c < line d) (ReportFields.changes r).
Proof.
  cbn.
  pose proof (report_changes_length 0 (splitlines original) (splitlines final)).
  repeat split; try lia. apply report_changes_sorted.
Qed.

End ReportFacts.

Module GuardFacts.

Import Py PyFacts KubeStructurer HealingPipeline PipelineFacts.

Lemma strip_empty_iff raw :
  ((raw =? "")%string || (strip raw =? "")%string) = true <-> strip raw = "".
Proof.
  split.
  - intros H. apply orb_prop in H as [H|H]; apply String.eqb_eq in H;
      [now subst raw|exact H].
  - intros H. rewrite H. apply orb_true_r.
Qed.

Section WithCollaborators.

Variable yaml : string -> Outcome.
Variable process_string : string -> Exc string.
Variable read_text : string -> Exc string.
Variable max_size_mb : Z.
Variable format_mb : nat -> string.

Local Abbreviation heal :=
  (heal_manifest yaml process_string read_text max_size_mb format_mb).
Local Abbreviation heal_text :=
  (heal_content yaml process_string max_size_mb format_mb).
Local Abbreviation text_of := (HealingPipeline.text_of read_text).
Local Abbreviation too_large raw :=
  (Z.of_nat (utf8_len raw) >? max_size_mb * 1024 * 1024)%Z.

Lemma heal_manifest_text raw_content file_path raw :
  text_of raw_content file_path raw ->
  heal raw_content file_path = heal_text raw file_path.
Proof.
  unfold heal_manifest.
  intros [[-> ->]|(path & -> & Hread)]; [reflexivity|].
  rewrite Hread. now destruct raw_content.
Qed.

Lemma structurer_status_not_guard st :
  In st structurer_statuses ->
  st <> "FILE_TOO_LARGE" /\ st <> "EMPTY_INPUT" /\ st <> "MISSING_INPUT"
  /\ startswith "FILE_READ_ERROR" st = false
  /\ startswith "PIPELINE_ERROR" st = false.
Proof.
  cbn. intros H.
  repeat (destruct H as [<-|H]; [repeat split; discriminate|]).
  contradiction.
Qed.

(** The three ways [heal_content] ends. *)
Lemma heal_text_cases raw file_path :
  let e := heal_text raw file_path in
  (too_large raw = true
   /\ e = _error_response (take 1000 raw) "FILE_TOO_LARGE"
            ("File exceeds " ++ str_int max_size_mb ++ "MB limit ("
             ++ format_mb (utf8_len raw) ++ "MB)") None)
  \/ (too_large raw = false /\ strip raw = ""
      /\ e = _error_response "" "EMPTY_INPUT" "No input provided" None)
  \/ (too_large raw = false /\ strip raw <> ""
      /\ ((In (status e) structurer_statuses
           /\ phase1_complete e = true
           /\ input_size_bytes e = utf8_len raw)
          \/ exists m,
               e = _error_response raw ("PIPELINE_ERROR: " ++ take 100 m) m None)).
Proof.
  cbv zeta. unfold heal_content.
  destruct (too_large raw); [left; auto|].
  destruct ((raw =? "")%string || (strip raw =? "")%string) eqn:Hblank.
  { apply strip_empty_iff in Hblank. right. left. auto. }
  right. right. split; [reflexivity|]. split.
  { intros E. apply strip_empty_iff in E. congruence. }
  unfold run_phases.
  destruct (process_string raw) as [lexed|m]; cbn [bind]; [|right; eauto].
  destruct (process_yaml yaml lexed) as [[final st]|m] eqn:E; cbn [bind];
    [|right; eauto].
  left. cbn. split; [|auto]. eapply process_yaml_status; eauto.
Qed.

(** X12.  For the text of a call: the status is FILE_TOO_LARGE exactly when
    the encoded text exceeds the ceiling, and EMPTY_INPUT exactly when it
    does not and the text is blank; the size is tested first. *)
Theorem guard_statuses_iff raw_content file_path raw :
  text_of raw_content file_path raw ->
  let e := heal raw_content file_path in
  (status e = "FILE_TOO_LARGE" <-> too_large raw = true)
  /\ (status e = "EMPTY_INPUT"
      <-> too_large raw = false /\ strip raw = "").
Proof.
  intros Htext. cbv zeta. rewrite (heal_manifest_text _ _ _ Htext).
  destruct (heal_text_cases raw file_path)
    as [[Hs ->] | [(Hs & Hb & ->) | (Hs & Hb & [(Hst & _) | (m & ->)])]];
    rewrite Hs; cbn [status _error_response].
  - split; split; auto; try discriminate. now intros [? _].
  - split; split; auto; discriminate.
  - apply structurer_status_not_guard in Hst as (H1 & H2 & _).
    split; split; try discriminate; try contradiction.
    intros [_ E]. contradiction.
  - split; split; try discriminate. intros [_ E]. contradiction.
Qed.

(** X13.  An input that a guard rejects (too large, or blank) gets the same
    envelope whatever the lexer and the engine are: neither is run. *)
Theorem rejected_input_never_reaches_the_phases
  raw_content file_path raw yaml' process_string' :
  text_of raw_content file_path raw ->
  too_large raw = true \/ strip raw = "" ->
  heal raw_content file_path
  = heal_manifest yaml' process_string' read_text max_size_mb format_mb
      raw_content file_path.
Proof.
  intros Htext Hrej.
  rewrite (heal_manifest_text _ _ _ Htext).
  transitivity (heal_content yaml' process_string' max_size_mb format_mb
                  raw file_path).
  - unfold heal_content. destruct (too_large raw); [reflexivity|].
    destruct Hrej as [Hrej|Hrej]; [discriminate|].
    apply strip_empty_iff in Hrej. now rewrite Hrej.
  - unfold heal_manifest.
    destruct Htext as [[-> ->]|(path & -> & Hread)]; [reflexivity|].
    rewrite Hread. now destruct raw_content.
Qed.

(** X14.  [input_size_bytes] is the encoded size of the text of the call,
    except under FILE_TOO_LARGE, where it is the size of the first 1000
    characters (the content returned), and under EMPTY_INPUT, where it
    is 0. *)
Theorem input_size_bytes_cases raw_content file_path raw :
  text_of raw_content file_path raw ->
  let e := heal raw_content file_path in
  (status e = "FILE_TOO_LARGE"
   /\ content e = take 1000 raw
   /\ String.length (content e) <= 1000
   /\ input_size_bytes e = utf8_len (take 1000 raw))
  \/ (status e = "EMPTY_INPUT" /\ content e = "" /\ input_size_bytes e = 0)
  \/ (status e <> "FILE_TOO_LARGE" /\ status e <> "EMPTY_INPUT"
      /\ input_size_bytes e = utf8_len raw).
Proof.
  intros Htext. cbv zeta. rewrite (heal_manifest_text _ _ _ Htext).
  destruct (heal_text_cases raw file_path)
    as [[Hs ->] | [(Hs & Hb & ->) | (Hs & Hb & [(Hst & _ & Hsize) | (m & ->)])]].
  - left. cbn. repeat split; [apply length_take|].
    now destruct (take 1000 raw).
  - right. left. cbn. auto.
  - right. right.
    apply structurer_status_not_guard in Hst as (H1 & H2 & _). auto.
  - right. right. cbn. repeat split; try discriminate. now destruct raw.
Qed.

(** X15.  [partial_heal] is never the boolean [True]: it is [False], or
    the stripped content, a text; it counts as true only as a non-empty
    text, under status STRUCTURE_FAIL. *)
Theorem partial_heal_is_false_or_text raw_content file_path :
  let e := heal raw_content file_path in
  partial_heal e = PyBool false
  \/ (partial_heal e = PyStr (strip (content e))
      /\ status e = STRUCTURE_FAIL).
Proof.
  cbv zeta.
  destruct (heal_manifest_cases yaml process_string read_text max_size_mb
              format_mb raw_content file_path)
    as [(_ & Hp & _) | (raw & lexed & _ & _ & Hyaml & _ & Hp & _)]; [auto|].
  rewrite Hp.
  destruct (startswith "STRUCTURE_FAIL" _) eqn:E; cbn [andb]; [|auto].
  destruct (negb _); [|auto].
  right. split; [reflexivity|].
  apply structurer_status_fail; [|exact E].
  eapply process_yaml_status; eauto.
Qed.

(** X16.  A batch has one envelope for each content that is not blank, in
    order, so never more envelopes than contents, and none of them is an
    EMPTY_INPUT, a MISSING_INPUT or a FILE_READ_ERROR. *)
Theorem batch_skips_blank_contents contents :
  let results :=
    heal_manifests yaml process_string read_text max_size_mb format_mb contents in
  results = map (fun c => heal (Some c) None)
                (filter (fun c => negb (strip c =? "")%string) contents)
  /\ List.length results <= List.length contents
  /\ Forall (fun e => status e <> "EMPTY_INPUT"
                      /\ status e <> "MISSING_INPUT"
                      /\ startswith "FILE_READ_ERROR" (status e) = false)
            results.
Proof.
  cbv zeta. unfold heal_manifests.
  assert (Hfilter : filter (fun c => negb (c =? "")%string
                                     && negb (strip c =? "")%string) contents
                    = filter (fun c => negb (strip c =? "")%string) contents).
  { apply filter_ext. intros c.
    destruct (String.eqb_spec c "") as [->|_]; reflexivity. }
  rewrite Hfilter. split; [reflexivity|]. split.
  { rewrite length_map. apply filter_length_le. }
  apply Forall_forall. intros e He.
  apply in_map_iff in He as (c & <- & Hc).
  apply filter_In in Hc as [_ Hc]. apply negb_true_iff in Hc.
  apply String.eqb_neq in Hc.
  change (heal (Some c) None) with (heal_text c None).
  destruct (heal_text_cases c None)
    as [[_ ->] | [(_ & Hb & _) | (_ & _ & [(Hst & _) | (m & ->)])]].
  - repeat split; discriminate.
  - contradiction.
  - apply structurer_status_not_guard in Hst as (_ & H2 & H3 & H4 & _). auto.
  - repeat split; discriminate.
Qed.

End WithCollaborators.

End GuardFacts.

Module BatchFacts.

Import Py KubeStructurer HealingPipeline PipelineFacts BatchSummary.

Lemma count_split {A} (p q : A -> bool) (l : list A) :
  (forall x, In x l -> p x && q x = false) ->
  count p l + count q l
  + count (fun x => negb (p x) && negb (q x)) l = List.length l.
Proof.
  unfold count. induction l as [|x l IH]; intros H; [reflexivity|].
  assert (Hx : p x && q x = false) by (apply H; now left).
  assert (Hl : forall y, In y l -> p y && q y = false)
    by (intros y Hy; apply H; now right).
  specialize (IH Hl). cbn [filter].
  destruct (p x), (q x); try discriminate; cbn [negb andb List.length]; lia.
Qed.

Section WithCollaborators.

Variable yaml : string -> Outcome.
Variable process_string : string -> Exc string.
Variable read_text : string -> Exc string.
Variable max_size_mb : Z.
Variable format_mb : nat -> string.
Variable float : Type.
Variable float_zero : float.
Variable true_div : nat -> nat -> float.

Local Abbreviation heal :=
  (heal_manifest yaml process_string read_text max_size_mb format_mb).
Local Abbreviation summary := (batch_success_rate float float_zero true_div).

Lemma envelope_flags_exclusive raw_content file_path :
  success (heal raw_content file_path)
  && truthy (partial_heal (heal raw_content file_path)) = false.
Proof.
  destruct (heal_manifest_cases yaml process_string read_text max_size_mb
              format_mb raw_content file_path)
    as [(-> & _) | (raw & lexed & _ & _ & _ & -> & -> & _)]; [reflexivity|].
  destruct (mem _ success_statuses) eqn:E; [|reflexivity].
  now rewrite (success_is_not_fail _ E).
Qed.

Lemma summary_nonempty results :
  results <> [] ->
  summary results =
  [("success_rate",
    VFloat float (true_div (count success results) (List.length results)));
   ("total", VInt float (Z.of_nat (List.length results)));
   ("successful", VInt float (Z.of_nat (count success results)));
   ("partial_heal",
    VInt float (Z.of_nat (count (fun r => truthy (partial_heal r)) results)));
   ("failed",
    VInt float (Z.of_nat (List.length results)
                - Z.of_nat (count success results)
                - Z.of_nat (count (fun r => truthy (partial_heal r)) results)))].
Proof. destruct results; [now intros H; elim H|reflexivity]. Qed.

(** X17.  In the summary of the envelopes that [heal_manifest] returned
    for a batch of calls, empty or not: [total] is the number of calls,
    [successful] the number of successes, the partial entry ([partial] for
    the empty batch, [partial_heal] otherwise) the number of partial heals,
    and [failed] the number of envelopes that are neither; the three counts
    add up to [total].  The success rate is 0.0 for the empty batch and
    the successes over the total otherwise. *)
Theorem summary_counts_add_up (calls : list (option string * option string)) :
  let results := map (fun call => heal (fst call) (snd call)) calls in
  let successful := count success results in
  let partial := count (fun r => truthy (partial_heal r)) results in
  let neither :=
    count (fun r => negb (success r) && negb (truthy (partial_heal r))) results in
  dict_get "failed" (summary results) = Some (VInt float (Z.of_nat neither))
  /\ dict_get "total" (summary results)
     = Some (VInt float (Z.of_nat (successful + partial + neither)))
  /\ dict_get "total" (summary results)
     = Some (VInt float (Z.of_nat (List.length calls)))
  /\ dict_get "successful" (summary results)
     = Some (VInt float (Z.of_nat successful))
  /\ dict_get (match calls with [] => "partial" | _ => "partial_heal" end)
       (summary results)
     = Some (VInt float (Z.of_nat partial))
  /\ successful + partial + neither = List.length calls
  /\ dict_get "success_rate" (summary results)
     = Some (VFloat float
               (match calls with
                | [] => float_zero
                | _ => true_div successful (List.length calls)
                end))
  /\ map fst (summary results)
     = ["success_rate"; "total"; "successful";
        match calls with [] => "partial" | _ => "partial_heal" end; "failed"].
Proof.
  cbv zeta.
  set (results := map (fun call => heal (fst call) (snd call)) calls).
  assert (Hex : forall r, In r results ->
                          success r && truthy (partial_heal r) = false).
  { intros r Hr. apply in_map_iff in Hr as (call & <- & _).
    apply envelope_flags_exclusive. }
  pose proof (count_split success (fun r => truthy (partial_heal r)) results Hex)
    as Hsum.
  assert (Hlen : List.length results = List.length calls) by apply length_map.
  destruct calls as [|call calls'] eqn:Ecalls.
  { subst results. cbn. repeat split. }
  assert (Hres : results <> []).
  { intros E. rewrite E in Hlen. discriminate. }
  rewrite (summary_nonempty _ Hres). cbn [dict_get map fst].
  change ("success_rate" =? "failed")%string with false.
  change ("total" =? "failed")%string with false.
  change ("successful" =? "failed")%string with false.
  change ("partial_heal" =? "failed")%string with false.
  change ("failed" =? "failed")%string with true.
  change ("success_rate" =? "total")%string with false.
  change ("total" =? "total")%string with true.
  change ("success_rate" =? "successful")%string with false.
  change ("total" =? "successful")%string with false.
  change ("successful" =? "successful")%string with true.
  change ("success_rate" =? "partial_heal")%string with false.
  change ("total" =? "partial_heal")%string with false.
  change ("successful" =? "partial_heal")%string with false.
  change ("partial_heal" =? "partial_heal")%string with true.
  change ("success_rate" =? "success_rate")%string with true.
  cbv iota. rewrite Hlen.
  repeat split; try (do 2 f_equal; lia); try lia.
Qed.

(** X18.  The summary of an empty batch names its partial count [partial];
    the summary of any other batch names it [partial_heal]. *)
Theorem summary_partial_key (results : list Envelope) :
  (dict_get "partial_heal" (summary results) = None <-> results = [])
  /\ (dict_get "partial" (summary results) = None <-> results <> []).
Proof.
  destruct results as [|r rs]; cbn; split; split;
    try discriminate; try reflexivity; try congruence.
Qed.

End WithCollaborators.

End BatchFacts.

Module AuditFacts.

Import Py KubeStructurer HealingPipeline PipelineFacts AuditEngine.

Section WithWorld.

Variable FS : Type.
Variable yaml : string -> Outcome.
Variable process_string : string -> Exc string.
Variable format_mb : nat -> string.
Variable resolve : FS -> string -> string.
Variable exists_ : FS -> string -> bool.
Variable is_file : FS -> string -> bool.
Variable readable : FS -> string -> bool.
Variable writable : FS -> string -> bool.
Variable read_text : FS -> string -> Exc string.
Variable stat_size : FS -> string -> Exc nat.
Variable parent : string -> string.
Variable with_suffix : string -> string -> string.
Variable stem : string -> string.
Variable with_name : string -> string -> string.
Variable relative_to_workspace : string -> Exc string.
Variable copy2 : FS -> string -> string -> FS * option string.
Variable write_text : FS -> string -> string -> FS * option string.
Variable replace : FS -> string -> string -> FS * option string.
Variable unlink : FS -> string -> FS * option string.

Local Abbreviation search := (backup_search FS exists_ stem with_name).
Local Abbreviation unique_backup :=
  (_create_unique_backup FS exists_ with_suffix stem with_name).
Local Abbreviation audit :=
  (audit_and_heal_file FS yaml process_string format_mb resolve exists_
     is_file readable writable read_text stat_size parent with_suffix stem
     with_name relative_to_workspace copy2 write_text replace unlink).
Local Abbreviation candidate target_path counter :=
  (with_name target_path
     (stem target_path ++ "-" ++ str_nat counter ++ ".kubecuro.backup")).

Lemma backup_search_free fuel fs target_path counter backup_path :
  search fuel fs target_path counter = Some backup_path ->
  exists_ fs backup_path = false.
Proof.
  revert counter. induction fuel as [|fuel IH]; intros counter; [discriminate|].
  cbn [backup_search].
  destruct (exists_ fs (candidate target_path counter)) eqn:E; cbn [negb].
  - apply IH.
  - now intros [= <-].
Qed.

Lemma backup_search_first_free fuel fs target_path counter skipped :
  (forall k, k < skipped ->
             exists_ fs (candidate target_path (counter + k)) = true) ->
  exists_ fs (candidate target_path (counter + skipped)) = false ->
  skipped < fuel ->
  search fuel fs target_path counter
  = Some (candidate target_path (counter + skipped)).
Proof.
  revert fuel counter.
  induction skipped as [|skipped IH]; intros fuel counter Hbusy Hfree Hfuel.
  - destruct fuel as [|fuel]; [lia|]. cbn [backup_search].
    rewrite Nat.add_0_r in *. now rewrite Hfree.
  - destruct fuel as [|fuel]; [lia|]. cbn [backup_search].
    assert (H0 : exists_ fs (candidate target_path (counter + 0)) = true)
      by (apply Hbusy; lia).
    rewrite Nat.add_0_r in H0.
    rewrite H0. cbn [negb].
    replace (counter + S skipped) with (counter + 1 + skipped) in * by lia.
    apply IH; [|exact Hfree|lia].
    intros k Hk. replace (counter + 1 + k) with (counter + S k) by lia.
    apply Hbusy. lia.
Qed.

(** X19.  The backup path that is returned does not exist: a backup never
    takes the place of a file that is there. *)
Theorem backup_path_is_free fuel fs target_path backup_path :
  _create_unique_backup FS exists_ with_suffix stem with_name fuel fs target_path
  = Some backup_path ->
  exists_ fs backup_path = false.
Proof.
  unfold _create_unique_backup.
  destruct (exists_ fs (with_suffix target_path ".kubecuro.backup")) eqn:E.
  - apply backup_search_free.
  - now intros [= <-].
Qed.

(** X20.  When the first backup name is taken, and so are the numbered
    names 1 to [n] - 1 but not number [n], the search returns number [n]
    as soon as it may run [n] rounds. *)
Theorem backup_path_is_first_free_number fuel fs target_path n :
  exists_ fs (with_suffix target_path ".kubecuro.backup") = true ->
  1 <= n ->
  (forall k, 1 <= k < n -> exists_ fs (candidate target_path k) = true) ->
  exists_ fs (candidate target_path n) = false ->
  n <= fuel ->
  _create_unique_backup FS exists_ with_suffix stem with_name fuel fs target_path
  = Some (candidate target_path n).
Proof.
  intros Hprimary Hn Hbusy Hfree Hfuel.
  unfold _create_unique_backup. rewrite Hprimary.
  replace n with (1 + (n - 1)) in Hfree |- * by lia.
  apply backup_search_first_free; [|exact Hfree|lia].
  intros k Hk. apply Hbusy. lia.
Qed.

(** X21.  A dry run returns, whatever the fuel, and leaves the file system
    as it was: no backup, nothing written. *)
Theorem dry_run_changes_nothing fuel fs relative_path force_write :
  exists r,
    audit_and_heal_file FS yaml process_string format_mb resolve exists_ is_file
      readable writable read_text stat_size parent with_suffix stem with_name
      relative_to_workspace copy2 write_text replace unlink
      fuel fs relative_path true force_write = Some (fs, r)
    /\ match r with
       | FileError _ _ _ => True
       | Audited _ backup_created backup_warning written write_error _ _ =>
           backup_created = None /\ backup_warning = None
           /\ written = false /\ write_error = None
       end.
Proof.
  unfold audit_and_heal_file. cbn [negb andb].
  destruct (exists_ fs _); cbn [negb]; [|eexists; split; [reflexivity|exact I]].
  destruct (is_file fs _); cbn [negb]; [|eexists; split; [reflexivity|exact I]].
  destruct (readable fs _); cbn [negb]; [|eexists; split; [reflexivity|exact I]].
  eexists. split; [reflexivity|]. cbn. auto.
Qed.

Lemma flag_statuses rt raw_content file_path :
  let e := heal_manifest yaml process_string rt 10 format_mb
             raw_content file_path in
  (success e = true -> In (status e) success_statuses)
  /\ (truthy (partial_heal e) = true -> status e = STRUCTURE_FAIL).
Proof.
  cbv zeta.
  destruct (heal_manifest_cases yaml process_string rt 10 format_mb
              raw_content file_path)
    as [(-> & -> & _) | (raw & lexed & _ & _ & Hyaml & -> & -> & _)].
  - split; discriminate.
  - split.
    + unfold mem. intros H. apply existsb_exists in H as (s & Hs & E).
      apply String.eqb_eq in E. now rewrite E.
    + destruct (startswith "STRUCTURE_FAIL" _) eqn:E; [|discriminate].
      intros _. apply structurer_status_fail; [|exact E].
      eapply process_yaml_status; eauto.
Qed.

(** X22.  A call that returns either leaves the file system as it was, with
    nothing written and no backup, or it was not a dry run, the file
    passed every pre-flight test, and the pipeline's status is a success
    status or, under [force_write], STRUCTURE_FAIL with a partial heal;
    then the result says [written], or carries the write error with
    [success] set to false. *)
Theorem written_only_on_success_or_forced_partial
  fuel fs relative_path dry_run force_write fs' r :
  audit_and_heal_file FS yaml process_string format_mb resolve exists_ is_file
      readable writable read_text stat_size parent with_suffix stem with_name
      relative_to_workspace copy2 write_text replace unlink
      fuel fs relative_path dry_run force_write = Some (fs', r) ->
  (fs' = fs
   /\ match r with
      | FileError _ _ _ => True
      | Audited _ backup_created backup_warning written write_error _ _ =>
          backup_created = None /\ backup_warning = None
          /\ written = false /\ write_error = None
      end)
  \/ (dry_run = false
      /\ (let full_path := resolve fs relative_path in
          exists_ fs full_path = true /\ is_file fs full_path = true
          /\ readable fs full_path = true /\ writable fs full_path = true
          /\ writable fs (parent full_path) = true)
      /\ let e := heal_manifest yaml process_string (read_text fs) 10 format_mb
                    None (Some (resolve fs relative_path)) in
         (In (status e) success_statuses
          \/ (force_write = true /\ status e = STRUCTURE_FAIL
              /\ truthy (partial_heal e) = true))
         /\ exists backup_created backup_warning size,
              r = Audited e backup_created backup_warning true None
                    relative_path size
              \/ exists error,
                   r = Audited (downgrade e) backup_created backup_warning
                         false (Some error) relative_path size).
Proof.
  unfold audit_and_heal_file.
  destruct (exists_ fs _) eqn:Hex; cbn [negb]; [|intros [= <- <-]; left; split; [reflexivity|exact I]].
  destruct (is_file fs _) eqn:Hfile; cbn [negb]; [|intros [= <- <-]; left; split; [reflexivity|exact I]].
  destruct (readable fs _) eqn:Hread; cbn [negb]; [|intros [= <- <-]; left; split; [reflexivity|exact I]].
  destruct (negb dry_run && _) eqn:Hperm; [intros [= <- <-]; left; split; [reflexivity|exact I]|].
  set (e := heal_manifest yaml process_string (read_text fs) 10 format_mb
              None (Some (resolve fs relative_path))).
  destruct (negb dry_run && (success e || truthy (partial_heal e) && force_write))
    eqn:Hwrite.
  2:{ intros [= <- <-]. left. cbn. auto. }
  apply andb_prop in Hwrite as [Hdry Hpolicy].
  apply negb_true_iff in Hdry. subst dry_run. cbn [negb andb] in Hperm.
  apply orb_false_elim in Hperm as [Hw Hwp].
  apply negb_false_iff in Hw, Hwp.
  destruct (_create_unique_backup _ _ _ _ _ fuel fs _) as [backup_path|];
    [|discriminate].
  destruct (copy2 fs _ backup_path) as [fs1 copied].
  destruct (match copied with
            | None => _
            | Some e0 => _
            end) as [backup_created backup_warning].
  destruct (_atomic_write _ _ _ _ _ _ fs1 _ _) as [fs2 failed].
  intros [= <- <-]. right. split; [reflexivity|]. split; [cbn; auto|].
  cbv zeta. fold e. split.
  - destruct (flag_statuses (read_text fs) None (Some (resolve fs relative_path)))
      as [Hs Hp]. fold e in Hs, Hp.
    apply orb_prop in Hpolicy as [H|H]; [left; auto|].
    apply andb_prop in H as [H1 H2]. right. auto.
  - exists backup_created, backup_warning, (file_size FS stat_size fs2 (resolve fs relative_path)).
    destruct failed as [err|]; [right; eauto|left; reflexivity].
Qed.

End WithWorld.

End AuditFacts.

Module LineFacts.

Import Py PyFacts KubeStructurer NormalizeFacts.

(** The two replacements of [_normalize_line_endings], before the final
    [rstrip]. *)
Local Abbreviation unix s := (replace cr nl (replace (cr ++ nl) nl s)).

Lemma unix_other c s :
  (c =? CR)%char = false -> unix (String c s) = String c (unix s).
Proof.
  intros Hc. unfold cr, nl. unfold replace at 2.
  cbn [replace_from append prefix].
  destruct (ascii_dec CR c) as [<-|_]; [now rewrite Ascii.eqb_refl in Hc|].
  cbv iota. rewrite replace_char_cons, Hc. reflexivity.
Qed.

Lemma unix_crlf s : unix (String CR (String LF s)) = String LF (unix s).
Proof.
  unfold cr, nl. unfold replace at 2.
  cbn [replace_from append prefix String.length Nat.sub].
  destruct (ascii_dec CR CR) as [_|H]; [|now elim H].
  destruct (ascii_dec LF LF) as [_|H]; [|now elim H].
  cbv iota. destruct s; reflexivity.
Qed.

Lemma unix_cr s :
  startswith nl s = false -> unix (String CR s) = String LF (unix s).
Proof.
  unfold startswith, cr, nl. intros Hs. unfold replace at 2.
  cbn [replace_from append prefix].
  destruct (ascii_dec CR CR) as [_|H]; [|now elim H].
  destruct s as [|d s]; [reflexivity|].
  cbn [prefix] in Hs |- *.
  destruct (ascii_dec LF d) as [<-|_].
  - destruct s; discriminate Hs.
  - cbv iota. rewrite replace_char_cons, Ascii.eqb_refl. reflexivity.
Qed.

Lemma splitlines_break c s :
  islinebreak c = true -> (c =? CR)%char = false ->
  splitlines (String c s) = "" :: splitlines s.
Proof.
  intros Hb Hc. cbn [splitlines]. rewrite Hb, Hc. cbn [andb].
  now destruct s.
Qed.

Lemma splitlines_unix_length n :
  forall s, String.length s <= n -> splitlines (unix s) = splitlines s.
Proof.
  induction n as [|n IH]; intros s Hn.
  - destruct s; [reflexivity|cbn in Hn; lia].
  - destruct s as [|c s]; [reflexivity|]. cbn [String.length] in Hn.
    destruct (Ascii.eqb_spec c CR) as [->|Hne].
    + destruct s as [|d s].
      * reflexivity.
      * destruct (Ascii.eqb_spec d LF) as [->|Hd].
        -- rewrite unix_crlf. cbn [String.length] in Hn.
           rewrite splitlines_break by reflexivity.
           rewrite IH by lia. reflexivity.
        -- rewrite unix_cr.
           2:{ unfold startswith, nl. cbn [prefix].
               destruct (ascii_dec LF d) as [<-|_]; [now elim Hd|reflexivity]. }
           rewrite splitlines_break by reflexivity.
           rewrite IH by lia.
           cbn [splitlines]. change (islinebreak CR) with true. cbv iota.
           destruct (Ascii.eqb_spec d LF) as [->|_]; [now elim Hd|].
           now rewrite andb_false_r.
    + assert (Hc : (c =? CR)%char = false) by now apply Ascii.eqb_neq.
      rewrite unix_other by exact Hc.
      destruct (islinebreak c) eqn:Hb.
      * rewrite !splitlines_break by assumption. now rewrite IH by lia.
      * cbn [splitlines]. rewrite Hb. now rewrite IH by lia.
Qed.

(** X23.  Normalizing leaves the lines as they are: the normalized text is
    a text with the same lines as the input, with its trailing white space
    removed. *)
Theorem normalize_keeps_the_lines yaml_str :
  exists t,
    _normalize_line_endings yaml_str = rstrip t
    /\ splitlines t = splitlines yaml_str.
Proof.
  exists (unix yaml_str). split; [reflexivity|].
  now apply (splitlines_unix_length (String.length yaml_str)).
Qed.

End LineFacts.

Module ProgressFacts.

Import Py PyFacts KubeStructurer DocumentFacts.

Section WithEngine.

Variable yaml : string -> Outcome.

Local Abbreviation validate := (validate_and_roundtrip yaml).

Lemma fix_loop_noop attempts yaml_str result :
  validate yaml_str = Return (false, result) ->
  auto_fix_indentation yaml_str result = Return yaml_str ->
  (forall content status,
     fix_loop yaml attempts yaml_str result = Return (content, status) ->
     content = yaml_str
     /\ (status = STRUCTURE_FAIL \/ status = STRUCTURE_PROTECTED_SKIP))
  /\ (forall line,
        getitem (splitlines yaml_str) (_extract_line result) = Return line ->
        _is_protected_structure line = false ->
        fix_loop yaml attempts yaml_str result
        = Return (yaml_str, STRUCTURE_FAIL)).
Proof.
  intros Hv Hfix.
  induction attempts as [|attempt attempts [IHout IHfail]].
  - split; [|reflexivity]. cbn. intros content status [= <- <-]. auto.
  - cbn [fix_loop]. rewrite Hfix. cbn [bind]. split.
    + destruct (getitem _ _) as [checked|]; cbn [bind]; [|discriminate].
      destruct (_is_protected_structure checked).
      { intros content status [= <- <-]. auto. }
      rewrite Hv. cbn [bind]. exact IHout.
    + intros line Hline Hprot. rewrite Hline. cbn [bind]. rewrite Hprot, Hv.
      cbn [bind]. exact (IHfail line Hline Hprot).
Qed.

Lemma fix_loop_noop_first attempt attempts yaml_str result :
  auto_fix_indentation yaml_str result = Return yaml_str ->
  (forall line,
     getitem (splitlines yaml_str) (_extract_line result) = Return line ->
     _is_protected_structure line = true ->
     fix_loop yaml (attempt :: attempts) yaml_str result
     = Return (yaml_str, STRUCTURE_PROTECTED_SKIP))
  /\ (forall e,
        getitem (splitlines yaml_str) (_extract_line result) = Raise e ->
        fix_loop yaml (attempt :: attempts) yaml_str result = Raise e).
Proof.
  intros Hfix. cbn [fix_loop]. rewrite Hfix. cbn [bind]. split.
  - intros line -> Hprot. cbn [bind]. now rewrite Hprot.
  - now intros e ->.
Qed.

(** X24.  When the first fix leaves the document as it is, the loop makes
    no progress: the document comes back unchanged, as STRUCTURE_FAIL when
    the line the check reads is there and not protected, and as
    STRUCTURE_PROTECTED_SKIP when that line is protected; no other status
    is returned, and when the line is not there the fault of the lookup
    is raised. *)
Theorem noop_fix_returns_the_document yaml_str result :
  validate yaml_str = Return (false, result) ->
  auto_fix_indentation yaml_str result = Return yaml_str ->
  (forall content status,
     _process_single_doc yaml yaml_str = Return (content, status) ->
     content = yaml_str
     /\ (status = STRUCTURE_FAIL \/ status = STRUCTURE_PROTECTED_SKIP))
  /\ (forall line,
        getitem (splitlines yaml_str) (_extract_line result) = Return line ->
        _is_protected_structure line = false ->
        _process_single_doc yaml yaml_str = Return (yaml_str, STRUCTURE_FAIL))
  /\ (forall line,
        getitem (splitlines yaml_str) (_extract_line result) = Return line ->
        _is_protected_structure line = true ->
        _process_single_doc yaml yaml_str
        = Return (yaml_str, STRUCTURE_PROTECTED_SKIP))
  /\ (forall e,
        getitem (splitlines yaml_str) (_extract_line result) = Raise e ->
        _process_single_doc yaml yaml_str = Raise e).
Proof.
  intros Hv Hfix. unfold _process_single_doc. rewrite Hv. cbn [bind].
  destruct (fix_loop_noop [0; 1; 2] yaml_str result Hv Hfix) as [Hout Hfail].
  destruct (fix_loop_noop_first 0 [1; 2] yaml_str result Hfix) as [Hskip Hraise].
  split; [exact Hout|]. split; [exact Hfail|]. split; [exact Hskip|exact Hraise].
Qed.

Local Abbreviation nonblank := (fun doc => negb (strip doc =? "")%string).

Lemma process_documents_loadable (dump : string -> string) documents :
  (forall doc, In doc documents -> strip doc <> "" -> yaml doc = Dumped (dump doc)) ->
  process_documents yaml documents
  = Return (map (fun doc => rstrip (dump doc)) (filter nonblank documents)).
Proof.
  induction documents as [|doc documents IH]; intros H; [reflexivity|].
  cbn [process_documents filter].
  assert (Hrest : forall d, In d documents -> strip d <> "" -> yaml d = Dumped (dump d))
    by (intros d Hd; apply H; now right).
  rewrite (IH Hrest).
  destruct (String.eqb_spec (strip doc) "") as [E|E]; cbn [negb]; [reflexivity|].
  unfold _process_single_doc, validate_and_roundtrip.
  rewrite (H doc (or_introl eq_refl) E). reflexivity.
Qed.

(** X25.  A stream that begins with [---] and whose fragments the engine
    all loads comes back as the canonical fragments, blank ones dropped,
    joined by a line with [---], with status MULTI_DOC_HANDLED. *)
Theorem multi_doc_of_loadable_fragments (dump : string -> string) lexer_output :
  let documents :=
    split_documents (strip (_normalize_line_endings lexer_output)) in
  startswith "---" (strip (_normalize_line_endings lexer_output)) = true ->
  (forall doc, In doc documents -> strip doc <> "" ->
               yaml doc = Dumped (dump doc)) ->
  process_yaml yaml lexer_output
  = Return (join (nl ++ "---" ++ nl)
              (map (fun doc => rstrip (dump doc)) (filter nonblank documents)),
            MULTI_DOC_HANDLED).
Proof.
  cbv zeta. intros Hstart Hload. unfold process_yaml.
  rewrite (startswith_strip_contains _ _ Hstart), Hstart. cbn [andb].
  unfold _process_multi_doc.
  rewrite (process_documents_loadable dump _ Hload). reflexivity.
Qed.

End WithEngine.

End ProgressFacts.

(** * Further worked examples *)

Module MoreExamples.

Import Py KubeStructurer HealingPipeline Scenarios MoreScenarios.
Import BatchSummary AuditEngine.
Import ProtectionFacts DocumentFacts GuardFacts BatchFacts AuditFacts
  ProgressFacts.

Lemma failure_text_carries_the_line_witness :
  exists result,
    validate_and_roundtrip flow_top_engine flow_top = Return (false, result)
    /\ _extract_line result = 0%Z.
Proof.
  apply (failure_text_carries_the_line flow_top_engine flow_top 0 4
           "while parsing a flow node").
  reflexivity.
Defined.

Lemma markless_message_read_as_location_witness :
  exists result,
    validate_and_roundtrip labelled_engine two_docs = Return (false, result)
    /\ _extract_line result = 1%Z.
Proof.
  apply (markless_message_read_as_location labelled_engine two_docs 1
           " duplicate key").
  reflexivity.
Defined.

Lemma protected_target_is_skipped_witness :
  _process_single_doc two_docs_engine two_docs_fixed
  = Return (two_docs_fixed, STRUCTURE_PROTECTED_SKIP).
Proof.
  apply (protected_target_is_skipped two_docs_engine two_docs_fixed 3 0
           "expected a single document in the stream" "---");
    reflexivity.
Defined.

Lemma canonical_content_has_no_trailing_space_witness :
  rstrip "a: 1" = "a: 1".
Proof.
  apply (canonical_content_has_no_trailing_space canonical_engine
           ("a: 1" ++ nl) "a: 1" STRUCTURE_OK).
  - reflexivity.
  - now left.
Defined.

Lemma multi_doc_branch_iff_leading_marker_witness :
  MULTI_DOC_HANDLED = MULTI_DOC_HANDLED
  <-> startswith "---" (strip (_normalize_line_endings (flow_doc ++ nl))) = true.
Proof.
  apply (multi_doc_branch_iff_leading_marker flow_engine (flow_doc ++ nl)
           flow_doc_fixed MULTI_DOC_HANDLED).
  reflexivity.
Defined.

Lemma guard_statuses_iff_witness :
  let e := heal_manifest flow_engine lexer_id no_files 10 format_mb_cut
             (Some ("   " ++ nl)) None in
  (status e = "FILE_TOO_LARGE"
   <-> (Z.of_nat (utf8_len ("   " ++ nl)) >? 10 * 1024 * 1024)%Z = true)
  /\ (status e = "EMPTY_INPUT"
      <-> (Z.of_nat (utf8_len ("   " ++ nl)) >? 10 * 1024 * 1024)%Z = false
          /\ strip ("   " ++ nl) = "").
Proof.
  apply (guard_statuses_iff flow_engine lexer_id no_files 10 format_mb_cut
           (Some ("   " ++ nl)) None ("   " ++ nl)).
  left. split; reflexivity.
Defined.

Lemma rejected_input_never_reaches_the_phases_witness :
  heal_manifest flow_engine lexer_id no_files 10 format_mb_cut
    (Some ("   " ++ nl)) None
  = heal_manifest faulty_engine (fun _ => Raise "no lexer") no_files 10
      format_mb_cut (Some ("   " ++ nl)) None.
Proof.
  apply (rejected_input_never_reaches_the_phases flow_engine lexer_id no_files
           10 format_mb_cut (Some ("   " ++ nl)) None ("   " ++ nl)).
  - left. split; reflexivity.
  - right. reflexivity.
Defined.

Lemma input_size_bytes_cases_witness :
  let e := heal_manifest flow_engine lexer_id no_files 0 format_mb_cut
             (Some flow_top) None in
  (status e = "FILE_TOO_LARGE"
   /\ content e = take 1000 flow_top
   /\ String.length (content e) <= 1000
   /\ input_size_bytes e = utf8_len (take 1000 flow_top))
  \/ (status e = "EMPTY_INPUT" /\ content e = "" /\ input_size_bytes e = 0)
  \/ (status e <> "FILE_TOO_LARGE" /\ status e <> "EMPTY_INPUT"
      /\ input_size_bytes e = utf8_len flow_top).
Proof.
  apply (input_size_bytes_cases flow_engine lexer_id no_files 0 format_mb_cut
           (Some flow_top) None flow_top).
  left. split; reflexivity.
Defined.

Lemma summary_counts_add_up_witness :
  (let results :=
     map (fun call =>
            heal_manifest flow_top_engine lexer_id no_files 10 format_mb_cut
              (fst call) (snd call))
         [(Some flow_top, None); (Some "b: 2", None); (None, None)] in
   let summary := batch_success_rate (nat * nat) (0, 1) quotient results in
   dict_get "failed" summary = Some (VInt (nat * nat) 1)
   /\ dict_get "successful" summary = Some (VInt (nat * nat) 1)
   /\ dict_get "partial_heal" summary = Some (VInt (nat * nat) 1)
   /\ dict_get "total" summary = Some (VInt (nat * nat) 3))
  /\ (let summary := batch_success_rate (nat * nat) (0, 1) quotient [] in
      dict_get "partial" summary = Some (VInt (nat * nat) 0)
      /\ dict_get "total" summary = Some (VInt (nat * nat) 0)).
Proof.
  destruct (summary_counts_add_up flow_top_engine lexer_id no_files 10
              format_mb_cut (nat * nat) (0, 1) quotient
              [(Some flow_top, None); (Some "b: 2", None); (None, None)])
    as (Hfailed & _ & Htotal & Hsuccessful & Hpartial & _).
  destruct (summary_counts_add_up flow_top_engine lexer_id no_files 10
              format_mb_cut (nat * nat) (0, 1) quotient [])
    as (_ & _ & Htotal0 & _ & Hpartial0 & _).
  split.
  - split; [exact Hfailed|]. split; [exact Hsuccessful|].
    split; [exact Hpartial|exact Htotal].
  - split; [exact Hpartial0|exact Htotal0].
Defined.

Lemma backup_path_is_free_witness :
  file_exists workspace "svc-2.kubecuro.backup" = false.
Proof.
  apply (backup_path_is_free Files file_exists name_with_suffix name_stem
           name_with_name 5 workspace "svc.yaml").
  reflexivity.
Defined.

Lemma backup_path_is_first_free_number_witness :
  _create_unique_backup Files file_exists name_with_suffix name_stem
    name_with_name 5 workspace "svc.yaml"
  = Some "svc-2.kubecuro.backup".
Proof.
  apply (backup_path_is_first_free_number Files file_exists name_with_suffix
           name_stem name_with_name 5 workspace "svc.yaml" 2).
  - reflexivity.
  - lia.
  - intros k Hk. assert (k = 1) as -> by lia. reflexivity.
  - reflexivity.
  - lia.
Defined.

(** A run that heals the manifest of the workspace: the backup takes the
    first free number, and the file is written without its final line
    feed. *)
Example audit_writes_with_backup :
  exists fs' envelope size,
    audit_files 5 workspace "svc.yaml" false false
    = Some (fs', Audited envelope (Some "svc-2.kubecuro.backup") None true None
                   "svc.yaml" size)
    /\ file_text fs' "svc.yaml" = Some "a: 1"
    /\ file_text fs' "svc-2.kubecuro.backup" = Some ("a: 1" ++ nl)
    /\ status envelope = STRUCTURE_OK.
Proof. do 3 eexists. repeat split. Qed.

Lemma written_only_on_success_or_forced_partial_witness :
  let e := heal_manifest canonical_engine lexer_id (file_read workspace) 10
             format_mb_cut None (Some "svc.yaml") in
  In (status e) success_statuses
  \/ (false = true /\ status e = STRUCTURE_FAIL
      /\ truthy (partial_heal e) = true).
Proof.
  destruct (audit_files 5 workspace "svc.yaml" false false)
    as [[fs' r]|] eqn:E; [|discriminate E].
  destruct (written_only_on_success_or_forced_partial Files canonical_engine
              lexer_id format_mb_cut resolve_name file_exists file_exists
              always always file_read file_stat name_parent name_with_suffix
              name_stem name_with_name name_relative file_copy file_write
              file_replace file_unlink 5 workspace "svc.yaml" false false
              fs' r E)
    as [[Hfs _] | (_ & _ & Hpolicy & _)].
  - injection E as E _. rewrite Hfs in E. discriminate E.
  - exact Hpolicy.
Defined.

Lemma noop_fix_returns_the_document_witness :
  _process_single_doc flow_top_engine flow_top_fixed
  = Return (flow_top_fixed, STRUCTURE_FAIL)
  /\ _is_protected_structure "*ref" = true
  /\ _process_single_doc alias_engine alias_doc
     = Return (alias_doc, STRUCTURE_PROTECTED_SKIP).
Proof.
  destruct (noop_fix_returns_the_document flow_top_engine flow_top_fixed
              (failure_text (Some (0, 6)) "while parsing a flow node")
              eq_refl eq_refl) as (_ & Hfail & _).
  destruct (noop_fix_returns_the_document alias_engine alias_doc
              (failure_text (Some (1, 0)) "found undefined alias")
              eq_refl eq_refl) as (_ & _ & Hskip & _).
  split; [apply (Hfail flow_top_fixed); reflexivity|].
  split; [reflexivity|].
  apply (Hskip "*ref"); reflexivity.
Defined.

Lemma multi_doc_of_loadable_fragments_witness :
  process_yaml canonical_engine two_doc_stream
  = Return (text ["a: 1"; "---"; "b: 2"], MULTI_DOC_HANDLED).
Proof.
  apply (multi_doc_of_loadable_fragments canonical_engine canonical_dump
           two_doc_stream).
  - reflexivity.
  - intros doc _ _. reflexivity.
Defined.

End MoreExamples.
